(** * AveragedOptimizerWrapper: a shallow embedding and its properties

    The development follows
    [tensorflow_addons/optimizers/average_wrapper.py].  The wrapper class
    is embedded method by method.  Everything the class calls but does not
    define (the Keras optimizer base class it inherits from, the wrapped
    optimizer, the optimizer registry and the abstract averaging rule) is
    kept behind interfaces, with the few base-class primitives the wrapper
    relies on ([add_slot], [get_slot], the [iterations] property,
    [tf.control_dependencies], [tf.group], [assign] on a variable) written out
    as the library documents them.

    Operations are deferred, as they are while TensorFlow builds a graph
    (inside a [tf.function], which is how Keras runs a training step): a
    method builds a description of work (an [Op]) and the section
    [Execution] gives the meaning of the operations the wrapper itself
    creates.  Under eager execution the same calls would do the work as
    they are made; that mode is outside the model, and no statement below
    is about the variable store after a call under it. *)

From stdpp Require Import gmap strings list fin_maps.
From Stdlib Require Import ZArith Lia.

Set Warnings "-register-all".

Local Open Scope Z_scope.
Local Open Scope string_scope.
Local Open Scope list_scope.

(** ** Exceptions and results *)

Inductive Exn : Type :=
| TypeError (msg : string)
| ValueError (msg : string)
| KeyError (msg : string)
| NotImplementedError
| RuntimeError (msg : string).

Inductive Res (A : Type) : Type :=
| Ok (a : A)
| Raise (e : Exn).
Arguments Ok {A} a.
Arguments Raise {A} e.

Definition is_type_error {A} (r : Res A) : Prop :=
  exists msg, r = Raise (TypeError msg).

Definition succeeds {A} (r : Res A) : Prop :=
  exists a, r = Ok a.

(** ** Tensors, variables and the variable store *)

Inductive DType : Type := float16 | float32 | float64 | int32 | int64.

Record Tensor : Type := mkTensor {
  t_shape : list nat;
  t_dtype : DType;
  t_data : list Z
}.

(** A variable is a reference: [v_id] is its identity (what Keras calls
    [_var_key]) and the address of its value in the store.  Shape, dtype
    and the [trainable] flag are fixed when the variable is created.  The
    store holds the value of every live variable; a new variable takes an
    address the store does not use yet. *)
Record Var : Type := mkVar {
  v_id : positive;
  v_name : string;
  v_shape : list nat;
  v_dtype : DType;
  v_trainable : bool
}.

Abbreviation Store := (gmap positive Tensor).

Definition num_elements (shape : list nat) : nat := foldr Nat.mul 1%nat shape.

(** The ["zeros"] initializer, the default of [add_slot] and [add_weight]. *)
Definition zeros (shape : list nat) (dtype : DType) : Tensor :=
  {| t_shape := shape; t_dtype := dtype;
     t_data := repeat 0 (num_elements shape) |}.

(** ** Deferred operations *)

Inductive OpKind : Type :=
| KNoOp
| KAssign (dst src : Var)
| KAssignAdd (dst : Var) (delta : Z)
| KExtern (tag : string).

(** An operation together with the operations it must wait for. *)
Inductive Op : Type :=
| MkOp (kind : OpKind) (control_inputs : list Op).

Definition op_kind (o : Op) : OpKind := let 'MkOp k _ := o in k.
Definition control_inputs (o : Op) : list Op := let 'MkOp _ c := o in c.

(** An operation may start once everything it waits for has completed. *)
Definition ready (completed : list Op) (o : Op) : Prop :=
  forall d, In d (control_inputs o) -> In d completed.

Inductive Grad : Type :=
| GDense (g : Tensor)
| GIndexedSlices (values indices : Tensor).

(** An averaging rule is code that runs inside the scope it is called in:
    it may create operations, each of which then waits for the operations
    of that scope, and it ends by returning an operation, one it created
    or one it already had, or by raising. *)
Inductive Build : Type :=
| BReturn (o : Op)
| BRaise (e : Exn)
| BCreate (kind : OpKind) (next : Op -> Build).

(** Running such code in scope [sc]: the result and the operations
    created on the way, in order. *)
Fixpoint run_build (sc : list Op) (p : Build) : Res Op * list Op :=
  match p with
  | BReturn o => (Ok o, [])
  | BRaise e => (Raise e, [])
  | BCreate kind next =>
      let o := MkOp kind sc in
      let '(r, created) := run_build sc (next o) in
      (r, o :: created)
  end.

(** The three gradient-application entry points with their arguments. *)
Inductive ApplyCall : Type :=
| ResourceApplyDense (grad : Tensor) (var : Var)
| ResourceApplySparse (grad : Tensor) (var : Var) (indices : Tensor)
| ResourceApplySparseDuplicateIndices (grad : Tensor) (var : Var)
                                      (indices : Tensor).

Definition call_var (c : ApplyCall) : Var :=
  match c with
  | ResourceApplyDense _ var => var
  | ResourceApplySparse _ var _ => var
  | ResourceApplySparseDuplicateIndices _ var _ => var
  end.

(** What the wrapper asks of its collaborators, in call order. *)
Inductive Event : Type :=
| EvBaseCreateSlots (var_list : list Var)
| EvBaseCreateHypers
| EvBasePrepare (var_list : list Var)
| EvBaseApply (c : ApplyCall) (scope : list Op)
| EvAverageOp (var average_var : Var) (scope : list Op)
| EvGetSlot (var : Var) (slot_name : string)
| EvAddSlot (var : Var) (slot_name : string).

Section Wrapper.

(** [O] is the private state of the wrapped optimizer, [K] what the Keras
    base class keeps for the wrapper from its own initialiser (name,
    clipping options, hyperparameters). *)
Context {O K : Type}.

(** The wrapped optimizer as the wrapper sees it: one attribute the
    wrapper writes, [_iterations], and the rest. *)
Record BaseObj : Type := mkBaseObj {
  b_iterations : option Var;
  b_inner : O
}.

(** Python values that reach the constructor and the configuration. *)
Inductive PyVal : Type :=
| PyNone
| PyBool (b : bool)
| PyInt (z : Z)
| PyStr (s : string)
| PyOptimizer (o : BaseObj)
| PyDict (items : list (string * PyVal)).

Abbreviation Config := (gmap string PyVal).

(** [isinstance(v, tf.keras.optimizers.Optimizer)] and
    [isinstance(v, bool)]. *)
Definition is_optimizer (v : PyVal) : bool :=
  match v with PyOptimizer _ => true | _ => false end.

Definition is_bool (v : PyVal) : bool :=
  match v with PyBool _ => true | _ => false end.

(** *** Interfaces of the collaborators *)

(** A hook of the wrapped optimizer may create variables and update its
    private state; it sees the whole object and the store. *)
Definition Hook (A : Type) : Type := BaseObj -> Store -> Res A * O * Store.

Class BaseOptimizer : Type := {
  base_create_slots : list Var -> Hook unit;
  base_create_hypers : Hook unit;
  base_prepare : list Var -> Hook PyVal;
  base_resource_apply_dense :
    Tensor -> Var -> BaseObj -> list Op -> Res Op;
  base_resource_apply_sparse :
    Tensor -> Var -> Tensor -> BaseObj -> list Op -> Res Op;
  base_resource_apply_sparse_duplicate_indices :
    Tensor -> Var -> Tensor -> BaseObj -> list Op -> Res Op;
  base_weights : BaseObj -> list Var;
  base_get_hyper : string -> BaseObj -> Res PyVal;
  base_set_hyper : string -> PyVal -> BaseObj -> Res O
}.

(** [tf.keras.optimizers.get], [serialize] and [deserialize]; the second
    argument of [deserialize] is [custom_objects].  What [get] returns is
    checked by the constructor like any other value. *)
Class Registry : Type := {
  optimizers_get : string -> Res PyVal;
  optimizers_serialize : BaseObj -> PyVal;
  optimizers_deserialize : PyVal -> PyVal -> Res BaseObj
}.

(** The initialiser and the [get_config] of the Keras base class. *)
Class KerasBase : Type := {
  super_init : PyVal -> Config -> Res K;
  super_get_config : K -> Config
}.

(** The abstract method [average_op]; the list is the control-dependency
    scope in force where it is called. *)
Class AveragingRule : Type := {
  average_op : Var -> Var -> list Op -> Res Op
}.

(** The averaging rule given by code written against the
    operation-construction interface. *)
Definition built_rule (rule : Var -> Var -> Build) : AveragingRule :=
  {| average_op := fun var average_var sc =>
       (run_build sc (rule var average_var)).1 |}.

(** *** The wrapper object and the world around it *)

Record Wrapper : Type := mkWrapper {
  _keras : K;
  _slots : gmap positive (gmap string Var);
  _slot_names : list string;
  _weights : list Var;
  _iterations : option Var;
  _optimizer : BaseObj;
  _sequential_update : bool
}.

Record Env : Type := mkEnv {
  self : Wrapper;
  store : Store;
  scope : list Op;
  trace : list Event
}.

Definition M (A : Type) : Type := Env -> Res A * Env.

Definition ret {A} (a : A) : M A := fun env => (Ok a, env).
Definition raise {A} (e : Exn) : M A := fun env => (Raise e, env).
Definition bind {A B} (m : M A) (f : A -> M B) : M B :=
  fun env =>
    match m env with
    | (Ok a, env') => f a env'
    | (Raise e, env') => (Raise e, env')
    end.

Notation "x <- m ;; k" := (bind m (fun x => k))
  (at level 100, m at next level, right associativity).

(** State access. *)
Definition set_self (w : Wrapper) (env : Env) : Env :=
  {| self := w; store := store env; scope := scope env; trace := trace env |}.
Definition set_store (st : Store) (env : Env) : Env :=
  {| self := self env; store := st; scope := scope env; trace := trace env |}.
Definition set_scope (sc : list Op) (env : Env) : Env :=
  {| self := self env; store := store env; scope := sc; trace := trace env |}.
Definition log (ev : Event) (env : Env) : Env :=
  {| self := self env; store := store env; scope := scope env;
     trace := trace env ++ [ev] |}.

Definition with_slots (sl : gmap positive (gmap string Var))
    (names : list string) (ws : list Var) (w : Wrapper) : Wrapper :=
  {| _keras := _keras w; _slots := sl; _slot_names := names; _weights := ws;
     _iterations := _iterations w; _optimizer := _optimizer w;
     _sequential_update := _sequential_update w |}.
Definition with_iterations (it : Var) (ws : list Var) (w : Wrapper) : Wrapper :=
  {| _keras := _keras w; _slots := _slots w; _slot_names := _slot_names w;
     _weights := ws; _iterations := Some it; _optimizer := _optimizer w;
     _sequential_update := _sequential_update w |}.
Definition with_optimizer (b : BaseObj) (w : Wrapper) : Wrapper :=
  {| _keras := _keras w; _slots := _slots w; _slot_names := _slot_names w;
     _weights := _weights w; _iterations := _iterations w; _optimizer := b;
     _sequential_update := _sequential_update w |}.

(** The [for] statement over a list. *)
Fixpoint for_each {A} (l : list A) (body : A -> M unit) : M unit :=
  match l with
  | [] => ret tt
  | x :: l' => _ <- body x;; for_each l' body
  end.

(** The list comprehension [[f x for x in l if cond x]]. *)
Fixpoint list_comp {A B} (l : list A) (cond : A -> bool) (f : A -> M B)
    : M (list B) :=
  match l with
  | [] => ret []
  | x :: l' =>
      if cond x
      then y <- f x;; ys <- list_comp l' cond f;; ret (y :: ys)
      else list_comp l' cond f
  end.

(** *** Primitives of the Keras base class and of TensorFlow *)

(** [OptimizerV2.add_slot(var, slot_name)] with the default initializer:
    the slot is looked up under the variable's key and created, filled
    with zeros of the variable's shape and dtype and registered as a
    weight, only when it is not there yet. *)
Definition add_slot (var : Var) (slot_name : string) : M Var := fun env0 =>
  let env := log (EvAddSlot var slot_name) env0 in
  let w := self env in
  let names := if decide (slot_name ∈ _slot_names w) then _slot_names w
               else _slot_names w ++ [slot_name] in
  let slot_dict := default ∅ (_slots w !! v_id var) in
  match slot_dict !! slot_name with
  | Some weight =>
      (Ok weight,
       set_self (with_slots (<[v_id var := slot_dict]> (_slots w)) names
                            (_weights w) w) env)
  | None =>
      let weight := {| v_id := fresh (dom (store env));
                       v_name := String.append (v_name var) (String.append "/" slot_name);
                       v_shape := v_shape var; v_dtype := v_dtype var;
                       v_trainable := false |} in
      (Ok weight,
       set_store (<[v_id weight := zeros (v_shape var) (v_dtype var)]> (store env))
         (set_self (with_slots
                      (<[v_id var := <[slot_name := weight]> slot_dict]> (_slots w))
                      names (_weights w ++ [weight]) w) env))
  end.

(** [OptimizerV2.get_slot(var, slot_name)]: two dictionary subscripts. *)
Definition get_slot (var : Var) (slot_name : string) : M Var := fun env0 =>
  let env := log (EvGetSlot var slot_name) env0 in
  match _slots (self env) !! v_id var with
  | None => (Raise (KeyError (v_name var)), env)
  | Some slot_dict =>
      match slot_dict !! slot_name with
      | None => (Raise (KeyError slot_name), env)
      | Some weight => (Ok weight, env)
      end
  end.

(** The [iterations] property: the counter is created on first use, an
    [int64] scalar starting at zero, and registered as a weight. *)
Definition iterations : M Var := fun env =>
  match _iterations (self env) with
  | Some it => (Ok it, env)
  | None =>
      let it := {| v_id := fresh (dom (store env)); v_name := "iter";
                   v_shape := []; v_dtype := int64; v_trainable := false |} in
      (Ok it,
       set_store (<[v_id it := zeros [] int64]> (store env))
         (set_self (with_iterations it (_weights (self env) ++ [it]) (self env))
                   env))
  end.

(** [with tf.control_dependencies(deps): body]. *)
Definition control_dependencies {A} (deps : list Op) (body : M A) : M A :=
  fun env =>
    let outer := scope env in
    let '(r, env') := body (set_scope (outer ++ deps) env) in
    (r, set_scope outer env').

(** [tf.group(inputs)]: a no-op that waits for every input. *)
Definition group (inputs : list Op) : M Op := fun env =>
  (Ok (MkOp KNoOp (scope env ++ inputs)), env).

(** [tf.no_op()]. *)
Definition no_op : M Op := fun env => (Ok (MkOp KNoOp (scope env)), env).

(** [var.assign(value)] where [value] is another variable.  While a graph
    is built the call only creates the assignment, in the current scope;
    the store changes when the operation is executed ([exec_kind]). *)
Definition assign (var value : Var) : M Op := fun env =>
  (Ok (MkOp (KAssign var value) (scope env)), env).

(** [var.assign_add(delta)]. *)
Definition assign_add (var : Var) (delta : Z) : M Op := fun env =>
  (Ok (MkOp (KAssignAdd var delta) (scope env)), env).

(** *** Calls into the collaborators *)

Context {BO : BaseOptimizer} {RG : Registry} {KB : KerasBase}
        {AR : AveragingRule}.

Definition call_hook {A} (ev : Event) (h : Hook A) : M A := fun env =>
  let b := _optimizer (self env) in
  let '(r, inner, st) := h b (store env) in
  (r, log ev (set_store st
               (set_self (with_optimizer
                            {| b_iterations := b_iterations b; b_inner := inner |}
                            (self env)) env))).

Definition base_apply (c : ApplyCall) (b : BaseObj) (sc : list Op) : Res Op :=
  match c with
  | ResourceApplyDense grad var => base_resource_apply_dense grad var b sc
  | ResourceApplySparse grad var indices =>
      base_resource_apply_sparse grad var indices b sc
  | ResourceApplySparseDuplicateIndices grad var indices =>
      base_resource_apply_sparse_duplicate_indices grad var indices b sc
  end.

(** The wrapped optimizer's handler is asked for its train operation in
    the current scope; the call is logged.  Building the operation does
    not touch the store. *)
Definition call_base_apply (c : ApplyCall) : M Op := fun env =>
  (base_apply c (_optimizer (self env)) (scope env),
   log (EvBaseApply c (scope env)) env).

Definition call_average_op (var average_var : Var) : M Op := fun env =>
  (average_op var average_var (scope env),
   log (EvAverageOp var average_var (scope env)) env).

(** *** The methods of [AveragedOptimizerWrapper] *)

(** Lines 35-36: a string is looked up in the registry, anything else is
    taken as it is. *)
Definition resolve_identifier (optimizer : PyVal) : Res PyVal :=
  match optimizer with
  | PyStr s => optimizers_get s
  | v => Ok v
  end.

(** [__init__(self, optimizer, sequential_update, name, **kwargs)].  The
    base-class initialiser runs first and leaves the slot table and the
    weight list empty and the iteration counter unset. *)
Definition __init__ (optimizer sequential_update name : PyVal)
    (kwargs : Config) : Res Wrapper :=
  match super_init name kwargs with
  | Raise e => Raise e
  | Ok k =>
      match resolve_identifier optimizer with
      | Raise e => Raise e
      | Ok (PyOptimizer o) =>
          match sequential_update with
          | PyBool b =>
              Ok {| _keras := k; _slots := ∅; _slot_names := [];
                    _weights := []; _iterations := None;
                    _optimizer := o; _sequential_update := b |}
          | _ => Raise (TypeError "sequential_update must be of bool type")
          end
      | Ok _ =>
          Raise (TypeError
                   "optimizer is not an object of tf.keras.optimizers.Optimizer")
      end
  end.

(** The body of the loop in [_create_slots]; the slot is not used. *)
Definition add_average_slot (var : Var) : M unit :=
  _ <- add_slot var "average";; ret tt.

Definition _create_slots (var_list : list Var) : M unit :=
  _ <- call_hook (EvBaseCreateSlots var_list) (base_create_slots var_list);;
  for_each var_list add_average_slot.

Definition _create_hypers : M unit :=
  call_hook EvBaseCreateHypers base_create_hypers.

Definition _prepare (var_list : list Var) : M PyVal :=
  call_hook (EvBasePrepare var_list) (base_prepare var_list).

Definition _apply_average_op (train_op : Op) (var : Var) : M Op :=
  average_var <- get_slot var "average";;
  fun env =>
    if _sequential_update (self env)
    then control_dependencies [train_op] (call_average_op var average_var) env
    else call_average_op var average_var env.

Definition _resource_apply_dense (grad : Tensor) (var : Var) : M Op :=
  train_op <- call_base_apply (ResourceApplyDense grad var);;
  average_op <- _apply_average_op train_op var;;
  group [train_op; average_op].

Definition _resource_apply_sparse (grad : Tensor) (var : Var)
    (indices : Tensor) : M Op :=
  train_op <- call_base_apply (ResourceApplySparse grad var indices);;
  average_op <- _apply_average_op train_op var;;
  group [train_op; average_op].

Definition _resource_apply_sparse_duplicate_indices (grad : Tensor)
    (var : Var) (indices : Tensor) : M Op :=
  train_op <-
    call_base_apply (ResourceApplySparseDuplicateIndices grad var indices);;
  average_op <- _apply_average_op train_op var;;
  group [train_op; average_op].

(** The wrapper's handler for a given entry point. *)
Definition wrapper_apply (c : ApplyCall) : M Op :=
  match c with
  | ResourceApplyDense grad var => _resource_apply_dense grad var
  | ResourceApplySparse grad var indices =>
      _resource_apply_sparse grad var indices
  | ResourceApplySparseDuplicateIndices grad var indices =>
      _resource_apply_sparse_duplicate_indices grad var indices
  end.

(** The element expression of the comprehension in
    [assign_average_vars]. *)
Definition assign_average (var : Var) : M Op :=
  slot <- get_slot var "average";; assign var slot.

Definition assign_average_vars (var_list : list Var) : M Op :=
  assigns <- list_comp var_list v_trainable assign_average;;
  group assigns.

(** [dict(items)]: later items replace earlier ones with the same key. *)
Definition py_dict (items : list (string * PyVal)) : Config :=
  foldl (fun m kv => <[kv.1 := kv.2]> m) ∅ items.

Definition get_config (w : Wrapper) : Config :=
  let config := [("optimizer", optimizers_serialize (_optimizer w));
                 ("sequential_update", PyBool (_sequential_update w))] in
  let base_config := super_get_config (_keras w) in
  py_dict (map_to_list base_config ++ config).

(** [from_config(cls, config, custom_objects)].  The second component is
    the caller's mapping as the call leaves it.  [cls(optimizer, **config)]
    binds the keys [sequential_update] and [name] to the parameters of
    that name, with their defaults when absent, and the rest to [kwargs]. *)
Definition from_config (config : Config) (custom_objects : PyVal)
    : Res Wrapper * Config :=
  match config !! "optimizer" with
  | None => (Raise (KeyError "optimizer"), config)
  | Some nested =>
      let config' := delete "optimizer" config in
      match optimizers_deserialize nested custom_objects with
      | Raise e => (Raise e, config')
      | Ok optimizer =>
          (__init__ (PyOptimizer optimizer)
             (default (PyBool true) (config' !! "sequential_update"))
             (default (PyStr "AverageOptimizer") (config' !! "name"))
             (delete "name" (delete "sequential_update" config')),
           config')
      end
  end.

Definition weights (w : Wrapper) : list Var :=
  _weights w ++ base_weights (_optimizer w).

Definition lr (w : Wrapper) : Res PyVal :=
  base_get_hyper "learning_rate" (_optimizer w).

Definition set_lr (value : PyVal) (w : Wrapper) : Res Wrapper :=
  match base_set_hyper "learning_rate" value (_optimizer w) with
  | Ok inner =>
      Ok (with_optimizer {| b_iterations := b_iterations (_optimizer w);
                            b_inner := inner |} w)
  | Raise e => Raise e
  end.

Definition learning_rate (w : Wrapper) : Res PyVal :=
  base_get_hyper "learning_rate" (_optimizer w).

Definition set_learning_rate (value : PyVal) (w : Wrapper) : Res Wrapper :=
  match base_set_hyper "learning_rate" value (_optimizer w) with
  | Ok inner =>
      Ok (with_optimizer {| b_iterations := b_iterations (_optimizer w);
                            b_inner := inner |} w)
  | Raise e => Raise e
  end.

(** *** [apply_gradients] and the inherited control flow *)

(** [OptimizerV2._filter_grads]: pairs without a gradient are dropped; a
    non-empty input that has no gradient at all is an error. *)
Definition _filter_grads (grads_and_vars : list (option Grad * Var))
    : Res (list (Grad * Var)) :=
  let filtered :=
    omap (fun gv => match gv.1 with Some g => Some (g, gv.2) | None => None end)
         grads_and_vars in
  match grads_and_vars, filtered with
  | _ :: _, [] => Raise (ValueError "No gradients provided for any variable")
  | _, _ => Ok filtered
  end.

(** Dispatch of one pair, as [OptimizerV2._distributed_apply] does it:
    indexed slices go to the duplicate-indices handler, anything else to
    the dense one.  Both are the wrapper's overrides. *)
Definition apply_grad_to_update_var (gv : Grad * Var) : M Op :=
  match gv.1 with
  | GIndexedSlices values indices =>
      _resource_apply_sparse_duplicate_indices values gv.2 indices
  | GDense g => _resource_apply_dense g gv.2
  end.

Fixpoint map_m {A B} (f : A -> M B) (l : list A) : M (list B) :=
  match l with
  | [] => ret []
  | x :: l' => y <- f x;; ys <- map_m f l';; ret (y :: ys)
  end.

(** [OptimizerV2.apply_gradients]: counter, hyperparameters and slots
    first; with no gradient left it stops there with a no-op and the step
    is not counted; otherwise preparation, one update per pair and one
    increment of the counter that waits for all the updates. *)
Definition super_apply_gradients (grads_and_vars : list (option Grad * Var))
    (name : option string) : M Op :=
  match _filter_grads grads_and_vars with
  | Raise e => raise e
  | Ok gvs =>
      let var_list := map snd gvs in
      _ <- iterations;;
      _ <- _create_hypers;;
      _ <- _create_slots var_list;;
      match gvs with
      | [] => no_op
      | _ :: _ =>
          _ <- _prepare var_list;;
          update_ops <- map_m apply_grad_to_update_var gvs;;
          it <- iterations;;
          control_dependencies update_ops (assign_add it 1)
      end
  end.

Definition set_base_iterations (it : Var) : M unit := fun env =>
  let b := _optimizer (self env) in
  (Ok tt,
   set_self (with_optimizer {| b_iterations := Some it; b_inner := b_inner b |}
                            (self env)) env).

Definition apply_gradients (grads_and_vars : list (option Grad * Var))
    (name : option string) : M Op :=
  it <- iterations;;
  _ <- set_base_iterations it;;
  super_apply_gradients grads_and_vars name.

(** *** Observations and sequences of calls *)

(** The average slot of a variable, as [get_slot] would find it. *)
Definition average_slot (w : Wrapper) (var : Var) : option Var :=
  match _slots w !! v_id var with
  | Some slot_dict => slot_dict !! "average"
  | None => None
  end.

(** The scope in which a handler calls the averaging rule. *)
Definition inner_scope (env : Env) (train_op : Op) : list Op :=
  if _sequential_update (self env) then scope env ++ [train_op]
  else scope env.

(** What a handler does when the variable has the slot [s], the wrapped
    optimizer builds [train_op] and the averaging rule, written as [rule],
    returns [avg]. *)
Definition handler_outcome (rule : Var -> Var -> Build) (env : Env)
    (c : ApplyCall) (s : Var) (train_op avg : Op) (result : Res Op * Env)
    : Prop :=
  let sc := inner_scope env train_op in
  let created := (run_build sc (rule (call_var c) s)).2 in
  result.1 = Ok (MkOp KNoOp (scope env ++ [train_op; avg])) /\
  trace result.2 = trace env ++ [EvBaseApply c (scope env);
                                 EvGetSlot (call_var c) "average";
                                 EvAverageOp (call_var c) s sc] /\
  scope result.2 = scope env /\
  (forall completed,
     ready completed (MkOp KNoOp (scope env ++ [train_op; avg])) ->
     In train_op completed /\ In avg completed) /\
  (_sequential_update (self env) = true ->
     In train_op sc /\
     forall o, In o created ->
       In train_op (control_inputs o) /\
       forall completed, ready completed o -> In train_op completed) /\
  (_sequential_update (self env) = false ->
     sc = scope env /\
     forall o, In o created -> control_inputs o = scope env).


(** The assignments of [assign_average_vars] in closed form, for scope
    [sc]: one per trainable variable of the list that has a slot. *)
Definition average_assignments (w : Wrapper) (sc : list Op)
    (var_list : list Var) : list Op :=
  omap (fun v => if v_trainable v
                 then match average_slot w v with
                      | Some s => Some (MkOp (KAssign v s) sc)
                      | None => None
                      end
                 else None) var_list.

(** What a call leaves alone besides the slot table, the weight list, the
    store and the call log. *)
Definition same_frame (env env' : Env) : Prop :=
  _optimizer (self env') = _optimizer (self env) /\
  _iterations (self env') = _iterations (self env) /\
  _sequential_update (self env') = _sequential_update (self env) /\
  _keras (self env') = _keras (self env) /\
  scope env' = scope env.

(** Both counter attributes are bound to one and the same variable. *)
Definition counters_shared (w : Wrapper) : Prop :=
  exists it, _iterations w = Some it /\ b_iterations (_optimizer w) = Some it.

(** The first statement of [apply_gradients]. *)
Definition sync_iterations : M unit :=
  it <- iterations;; set_base_iterations it.

(** A property of the wrapper object that a computation keeps, whether
    the computation returns or raises. *)
Definition preserves (P : Wrapper -> Prop) {A} (m : M A) : Prop :=
  forall env, P (self env) -> P (self (m env).2).

(** The properties that survive the four ways in which the wrapper object
    changes: a hook of the wrapped optimizer replacing that optimizer's
    private state, the creation of the counter, the creation of a slot,
    and the binding of the counter into the wrapped optimizer. *)
Class Stable (P : Wrapper -> Prop) : Prop := {
  stable_hook : forall w inner,
    P w ->
    P (with_optimizer {| b_iterations := b_iterations (_optimizer w);
                         b_inner := inner |} w);
  stable_iterations : preserves P iterations;
  stable_add_slot : forall var slot_name, preserves P (add_slot var slot_name);
  stable_sync : preserves P sync_iterations
}.

(** The wrapper's counter is the variable [it]. *)
Definition has_counter (it : Var) (w : Wrapper) : Prop :=
  _iterations w = Some it.

(** Both counter attributes are the variable [it]. *)
Definition shared_at (it : Var) (w : Wrapper) : Prop :=
  _iterations w = Some it /\ b_iterations (_optimizer w) = Some it.

(** [v] is one of the slot variables of the wrapper. *)
Definition is_slot (w : Wrapper) (v : Var) : Prop :=
  exists key slot_dict slot_name,
    _slots w !! key = Some slot_dict /\ slot_dict !! slot_name = Some v.

(** The wrapper's own weight list holds the iteration counter and the
    slot variables, and nothing else. *)
Definition own_weights_ok (w : Wrapper) : Prop :=
  forall v, v ∈ _weights w <-> (_iterations w = Some v \/ is_slot w v).

(** A computation that leaves a component of the state as it found it,
    whether it returns or raises. *)
Definition fixes {X} (f : Env -> X) {A} (m : M A) : Prop :=
  forall env, f (m env).2 = f env.

(** The value a counter attribute currently denotes. *)
Definition read_counter (it : option Var) (st : Store) : option Tensor :=
  match it with
  | Some v => st !! v_id v
  | None => None
  end.

(** A call of one of the wrapper's methods on an existing object. *)
Inductive Call : Type :=
| CCreateSlots (var_list : list Var)
| CCreateHypers
| CPrepare (var_list : list Var)
| CApplyGradients (grads_and_vars : list (option Grad * Var))
                  (name : option string)
| CApply (c : ApplyCall)
| CAssignAverageVars (var_list : list Var)
| CSetLr (value : PyVal).

(** The state a call leaves behind, whether it returns or raises. *)
Definition run_call (c : Call) (env : Env) : Env :=
  match c with
  | CCreateSlots var_list => (_create_slots var_list env).2
  | CCreateHypers => (_create_hypers env).2
  | CPrepare var_list => (_prepare var_list env).2
  | CApplyGradients gvs name => (apply_gradients gvs name env).2
  | CApply c => (wrapper_apply c env).2
  | CAssignAverageVars var_list => (assign_average_vars var_list env).2
  | CSetLr value =>
      match set_lr value (self env) with
      | Ok w => set_self w env
      | Raise _ => env
      end
  end.

Definition run_calls (cs : list Call) (env : Env) : Env :=
  foldl (fun e c => run_call c e) env cs.

End Wrapper.

(** ** Execution of the operations the wrapper creates *)

Definition wrap_signed (bits : Z) (z : Z) : Z :=
  (z + 2 ^ (bits - 1)) mod 2 ^ bits - 2 ^ (bits - 1).

Definition wrap_dtype (d : DType) (z : Z) : Z :=
  match d with
  | int32 => wrap_signed 32 z
  | int64 => wrap_signed 64 z
  | _ => z
  end.

Definition tensor_add (delta : Z) (t : Tensor) : Tensor :=
  {| t_shape := t_shape t; t_dtype := t_dtype t;
     t_data := map (fun z => wrap_dtype (t_dtype t) (z + delta)) (t_data t) |}.

(** The effect of one operation on the store; the operations built by the
    collaborators have no meaning here. *)
Definition exec_kind (k : OpKind) (st : Store) : option Store :=
  match k with
  | KNoOp => Some st
  | KAssign dst src =>
      match st !! v_id src with
      | Some t => Some (<[v_id dst := t]> st)
      | None => None
      end
  | KAssignAdd dst delta =>
      match st !! v_id dst with
      | Some t => Some (<[v_id dst := tensor_add delta t]> st)
      | None => None
      end
  | KExtern _ => None
  end.

(** Running operations one after the other in the given order. *)
Fixpoint exec_ops (ops : list Op) (st : Store) : option Store :=
  match ops with
  | [] => Some st
  | o :: ops' =>
      match exec_kind (op_kind o) st with
      | Some st' => exec_ops ops' st'
      | None => None
      end
  end.

(** The variables a list of operations assigns to. *)
Definition assigned_ids (ops : list Op) : list positive :=
  omap (fun o => match op_kind o with
                 | KAssign dst _ => Some (v_id dst)
                 | _ => None
                 end) ops.


(** ** A concrete installation of the interfaces

    Plain gradient descent as the wrapped optimizer, a registry that knows
    it under the name ["sgd"], the base-class initialiser with its four
    accepted options, and an averaging rule that creates one update
    operation in the scope it is called in.  The general theorems below
    are evaluated on it. *)

Module Reference.

(** The value of a hyperparameter as the optimizer keeps it. *)
Inductive Hyper : Type :=
| HyperNone
| HyperBool (b : bool)
| HyperInt (z : Z)
| HyperText (s : string)
| HyperObject.

Record Sgd : Type := mkSgd {
  sgd_learning_rate : Hyper;
  sgd_weights : list Var
}.

Record Base : Type := mkBase {
  k_name : @PyVal Sgd;
  k_options : gmap string (@PyVal Sgd)
}.

Definition to_hyper (v : @PyVal Sgd) : Hyper :=
  match v with
  | PyNone => HyperNone
  | PyBool b => HyperBool b
  | PyInt z => HyperInt z
  | PyStr s => HyperText s
  | _ => HyperObject
  end.

Definition of_hyper (h : Hyper) : @PyVal Sgd :=
  match h with
  | HyperNone => PyNone
  | HyperBool b => PyBool b
  | HyperInt z => PyInt z
  | HyperText s => PyStr s
  | HyperObject => PyDict []
  end.

Definition sgd (lr : Z) : @BaseObj Sgd :=
  {| b_iterations := None;
     b_inner := {| sgd_learning_rate := HyperInt lr; sgd_weights := [] |} |}.

(** Gradient descent without momentum: it has no slots; its plain sparse
    handler needs the momentum slot and fails without it; a
    hyperparameter is stored whatever its value. *)
#[export] Instance sgd_optimizer : @BaseOptimizer Sgd := {|
  base_create_slots := fun _ b st => (Ok tt, b_inner b, st);
  base_create_hypers := fun b st => (Ok tt, b_inner b, st);
  base_prepare := fun _ b st => (Ok PyNone, b_inner b, st);
  base_resource_apply_dense := fun _ _ _ sc =>
    Ok (MkOp (KExtern "ResourceApplyGradientDescent") sc);
  base_resource_apply_sparse := fun _ _ _ _ _ => Raise (KeyError "momentum");
  base_resource_apply_sparse_duplicate_indices := fun _ _ _ _ sc =>
    Ok (MkOp (KExtern "ResourceScatterAdd") sc);
  base_weights := fun b => sgd_weights (b_inner b);
  base_get_hyper := fun name b =>
    if String.eqb name "learning_rate"
    then Ok (of_hyper (sgd_learning_rate (b_inner b)))
    else Raise (KeyError name);
  base_set_hyper := fun name value b =>
    if String.eqb name "learning_rate"
    then Ok {| sgd_learning_rate := to_hyper value;
               sgd_weights := sgd_weights (b_inner b) |}
    else Raise (KeyError name)
|}.

(** An optimizer whose three handlers build three different operations. *)
Definition tagged_optimizer : @BaseOptimizer Sgd := {|
  base_create_slots := fun _ b st => (Ok tt, b_inner b, st);
  base_create_hypers := fun b st => (Ok tt, b_inner b, st);
  base_prepare := fun _ b st => (Ok PyNone, b_inner b, st);
  base_resource_apply_dense := fun _ _ _ sc => Ok (MkOp (KExtern "dense") sc);
  base_resource_apply_sparse := fun _ _ _ _ sc =>
    Ok (MkOp (KExtern "sparse") sc);
  base_resource_apply_sparse_duplicate_indices := fun _ _ _ _ sc =>
    Ok (MkOp (KExtern "sparse_duplicate_indices") sc);
  base_weights := fun b => sgd_weights (b_inner b);
  base_get_hyper := fun name _ => Raise (KeyError name);
  base_set_hyper := fun name _ _ => Raise (KeyError name)
|}.

Definition serialize_sgd (b : @BaseObj Sgd) : @PyVal Sgd :=
  PyDict [("class_name", PyStr "SGD");
          ("config",
           PyDict [("learning_rate", of_hyper (sgd_learning_rate (b_inner b)))])].

(** [str.lower] on ASCII letters. *)
Definition lower_ascii (c : Ascii.ascii) : Ascii.ascii :=
  let n := Ascii.nat_of_ascii c in
  if ((65 <=? n) && (n <=? 90))%nat then Ascii.ascii_of_nat (n + 32) else c.

Fixpoint lower (identifier : string) : string :=
  match identifier with
  | EmptyString => EmptyString
  | String c rest => String (lower_ascii c) (lower rest)
  end.

(** A nested configuration is a dictionary naming a known class, whatever
    the case of its letters; anything that is no dictionary cannot be
    subscripted. *)
Definition deserialize_sgd (v : @PyVal Sgd) : Res (@BaseObj Sgd) :=
  match v with
  | PyDict [("class_name", PyStr class_name);
            ("config", PyDict [("learning_rate", lr)])] =>
      if String.eqb (lower class_name) "sgd"
      then Ok {| b_iterations := None;
                 b_inner := {| sgd_learning_rate := to_hyper lr;
                               sgd_weights := [] |} |}
      else Raise (ValueError (String.append "Unknown optimizer: " class_name))
  | PyDict _ => Raise (ValueError "Improper config format")
  | _ => Raise (TypeError "string indices must be integers")
  end.

(** An unknown identifier is reported by the registry as a value error,
    as [tf.keras.optimizers.get] does (["Unknown optimizer: ..."]). *)
#[export] Instance registry : @Registry Sgd := {|
  optimizers_get := fun s =>
    if String.eqb (lower s) "sgd" then Ok (PyOptimizer (sgd 1))
    else Raise (ValueError (String.append "Unknown optimizer: " s));
  optimizers_serialize := serialize_sgd;
  optimizers_deserialize := fun v _ => deserialize_sgd v
|}.

Definition allowed_kwargs : list string := ["clipnorm"; "clipvalue"; "lr"; "decay"].

Definition check_kwarg (kv : string * @PyVal Sgd) : Res unit :=
  if bool_decide (kv.1 ∈ allowed_kwargs)
  then match kv.2 with
       | PyInt z =>
           if (z <? 0)%Z then Raise (ValueError "Expected a value >= 0")
           else Ok tt
       | _ => Raise (TypeError "unorderable option value")
       end
  else Raise (TypeError "Unexpected keyword argument passed to optimizer").

Fixpoint check_kwargs (kvs : list (string * @PyVal Sgd)) : Res unit :=
  match kvs with
  | [] => Ok tt
  | kv :: kvs' =>
      match check_kwarg kv with
      | Ok _ => check_kwargs kvs'
      | Raise e => Raise e
      end
  end.

Definition clip_options (kwargs : gmap string (@PyVal Sgd))
    : gmap string (@PyVal Sgd) :=
  filter (fun kv => kv.1 = "clipnorm" \/ kv.1 = "clipvalue") kwargs.

#[export] Instance keras_base : @KerasBase Sgd Base := {|
  super_init := fun name kwargs =>
    match check_kwargs (map_to_list kwargs) with
    | Ok _ => Ok {| k_name := name; k_options := clip_options kwargs |}
    | Raise e => Raise e
    end;
  super_get_config := fun k => <["name" := k_name k]> (k_options k)
|}.

(** A moving average: the update of the slot is one operation, created
    where the rule is called. *)
Definition moving_average_rule (var average_var : Var) : Build :=
  BCreate (KExtern "AssignSubVariableOp") BReturn.

#[export] Instance moving_average : AveragingRule :=
  built_rule moving_average_rule.

(** Sample data. *)
Definition kernel : Var :=
  {| v_id := 1; v_name := "dense/kernel"; v_shape := [2%nat; 3%nat];
     v_dtype := float32; v_trainable := true |}.
Definition bias : Var :=
  {| v_id := 2; v_name := "dense/bias"; v_shape := [3%nat];
     v_dtype := float32; v_trainable := true |}.
Definition moving_mean : Var :=
  {| v_id := 3; v_name := "bn/moving_mean"; v_shape := [3%nat];
     v_dtype := float32; v_trainable := false |}.

Definition tensor (shape : list nat) (data : list Z) : Tensor :=
  {| t_shape := shape; t_dtype := float32; t_data := data |}.

Definition store0 : Store :=
  <[1%positive := tensor [2%nat; 3%nat] [1; 2; 3; 4; 5; 6]]>
  (<[2%positive := tensor [3%nat] [7; 8; 9]]>
  (<[3%positive := tensor [3%nat] [10; 11; 12]]> ∅)).

Definition default_name : @PyVal Sgd := PyStr "AverageOptimizer".

Definition env_of (w : @Wrapper Sgd Base) (st : Store) : @Env Sgd Base :=
  {| self := w; store := st; scope := []; trace := [] |}.

Definition no_options : gmap string (@PyVal Sgd) := ∅.

Definition base_fields : Base :=
  {| k_name := default_name; k_options := ∅ |}.

(** The object construction returns for an optimizer instance, a boolean
    flag, the default name and no options. *)
Definition fresh_wrapper (o : @BaseObj Sgd) (flag : bool) : @Wrapper Sgd Base :=
  {| _keras := base_fields; _slots := ∅; _slot_names := []; _weights := [];
     _iterations := None; _optimizer := o; _sequential_update := flag |}.

(** A wrapper over [sgd 1] once its slots exist for the three sample
    variables. *)
Definition sample_vars : list Var := [kernel; moving_mean; bias].

Definition slotted_env : @Env Sgd Base :=
  (_create_slots sample_vars (env_of (fresh_wrapper (sgd 1) true) store0)).2.

Definition kernel_average : Var :=
  {| v_id := 4; v_name := "dense/kernel/average"; v_shape := [2%nat; 3%nat];
     v_dtype := float32; v_trainable := false |}.
Definition bias_average : Var :=
  {| v_id := 6; v_name := "dense/bias/average"; v_shape := [3%nat];
     v_dtype := float32; v_trainable := false |}.

(** The same state after some training: the averages hold values. *)
Definition averaged_env : @Env Sgd Base :=
  set_store (<[4%positive := tensor [2%nat; 3%nat] [11; 12; 13; 14; 15; 16]]>
            (<[6%positive := tensor [3%nat] [17; 18; 19]]> (store slotted_env)))
            slotted_env.

(** A further trainable variable, stored but without a slot so far. *)
Definition gamma : Var :=
  {| v_id := 7; v_name := "bn/gamma"; v_shape := [3%nat];
     v_dtype := float32; v_trainable := true |}.

Definition grown_env : @Env Sgd Base :=
  set_store (<[7%positive := tensor [3%nat] [1; 1; 1]]> (store averaged_env))
            averaged_env.

(** An optimizer that has already taken five steps on its own. *)
Definition sgd_iter : Var :=
  {| v_id := 4; v_name := "SGD/iter"; v_shape := []; v_dtype := int64;
     v_trainable := false |}.

Definition used_sgd : @BaseObj Sgd :=
  {| b_iterations := Some sgd_iter;
     b_inner := {| sgd_learning_rate := HyperInt 1; sgd_weights := [sgd_iter] |} |}.

Definition store5 : Store :=
  <[4%positive := {| t_shape := []; t_dtype := int64; t_data := [5] |}]> store0.

(** A wrapper around it whose own counter has been read once, as it
    stands before its first [apply_gradients]. *)
Definition before_first_apply : @Env Sgd Base :=
  (iterations (env_of (fresh_wrapper used_sgd true) store5)).2.

Definition sample_config : gmap string (@PyVal Sgd) :=
  <["optimizer" := serialize_sgd (sgd 3)]>
    (<["sequential_update" := PyBool false]>
       (<["name" := PyStr "swa"]> ∅)).

Definition sample_grad : Tensor := tensor [3%nat] [1; 1; 1].

(** The fresh wrapper over [sgd 1] before any slot exists. *)
Definition unslotted_env : @Env Sgd Base :=
  env_of (fresh_wrapper (sgd 1) true) store0.

(** An optimizer and an averaging rule that refuse to build anything. *)
Definition failing_optimizer : @BaseOptimizer Sgd := {|
  base_create_slots := fun _ b st => (Ok tt, b_inner b, st);
  base_create_hypers := fun b st => (Ok tt, b_inner b, st);
  base_prepare := fun _ b st => (Ok PyNone, b_inner b, st);
  base_resource_apply_dense := fun _ _ _ _ => Raise (RuntimeError "dense");
  base_resource_apply_sparse := fun _ _ _ _ _ => Raise (RuntimeError "sparse");
  base_resource_apply_sparse_duplicate_indices := fun _ _ _ _ _ =>
    Raise (RuntimeError "sparse");
  base_weights := fun b => sgd_weights (b_inner b);
  base_get_hyper := fun name _ => Raise (KeyError name);
  base_set_hyper := fun name _ _ => Raise (KeyError name)
|}.

Definition abstract_rule : AveragingRule := {|
  average_op := fun _ _ _ => Raise NotImplementedError
|}.

(** Configurations with a missing or a wrong entry. *)
Definition config_without_optimizer : gmap string (@PyVal Sgd) :=
  <["sequential_update" := PyBool false]> (<["name" := PyStr "swa"]> ∅).

Definition config_without_flag : gmap string (@PyVal Sgd) :=
  <["optimizer" := serialize_sgd (sgd 3)]> (<["name" := PyStr "swa"]> ∅).

Definition unknown_nested : @PyVal Sgd :=
  PyDict [("class_name", PyStr "NoSuchOptimizer");
          ("config", PyDict [("learning_rate", PyInt 1)])].

Definition config_bad_nested : gmap string (@PyVal Sgd) :=
  <["optimizer" := unknown_nested]> (<["name" := PyStr "swa"]> ∅).

Definition config_bad_flag : gmap string (@PyVal Sgd) :=
  <["optimizer" := serialize_sgd (sgd 3)]>
    (<["sequential_update" := PyInt 1]> ∅).

Definition sample_train_op : Op :=
  MkOp (KExtern "ResourceApplyGradientDescent") [].

Definition sample_average_op : Op :=
  MkOp (KExtern "AssignSubVariableOp") [sample_train_op].

(** A fresh wrapper after one training step on [bias]. *)
Definition trained_env : @Env Sgd Base :=
  run_calls [CApplyGradients [(Some (GDense sample_grad), bias)] None]
            (env_of (fresh_wrapper (sgd 1) true) store0).

End Reference.

(** ** Properties *)

Section Construction.

Context {O K : Type} {RG : @Registry O} {KB : @KerasBase O K}.

Lemma resolve_identifier_instance (o : BaseObj) :
  resolve_identifier (PyOptimizer o) = Ok (PyOptimizer o).
Proof. reflexivity. Qed.

Lemma resolve_identifier_string (s : string) :
  resolve_identifier (PyStr s) = optimizers_get s.
Proof. reflexivity. Qed.

(** Resolution fails only for a string the registry rejects, and then
    with the registry's own exception. *)
Lemma resolve_identifier_raises (optimizer : PyVal) (e : Exn) :
  resolve_identifier optimizer = Raise e <->
  exists s, optimizer = PyStr s /\ optimizers_get s = Raise e.
Proof.
  split.
  - destruct optimizer as [| | |s| |]; simpl; try discriminate. eauto.
  - intros (s & -> & Hget). exact Hget.
Qed.

Lemma init_super_raises (optimizer sequential_update name : PyVal)
    (kwargs : gmap string PyVal) (e : Exn) :
  super_init name kwargs = Raise e ->
  __init__ optimizer sequential_update name kwargs = Raise e.
Proof. intros H. unfold __init__. now rewrite H. Qed.

(** C7: for an optimizer instance [o] and a boolean [b], whenever the
    base-class initialiser accepts the remaining arguments, construction
    returns a wrapper whose [_optimizer] is exactly [o] and whose
    [_sequential_update] is exactly [b]. *)
Theorem init_stores_arguments (o : BaseObj) (b : bool) (name : PyVal)
    (kwargs : gmap string PyVal) (k : K) :
  super_init name kwargs = Ok k ->
  exists w, __init__ (PyOptimizer o) (PyBool b) name kwargs = Ok w /\
            _optimizer w = o /\ _sequential_update w = b.
Proof.
  intros Hk. unfold __init__. rewrite Hk. simpl.
  eexists. split; [reflexivity|]. split; reflexivity.
Qed.

(** C2, as amended: once the base-class initialiser has accepted the name
    and the extra options, construction (1) raises the registry's own
    exception when the optimizer is a string the registry rejects,
    (2) raises a type error when the resolved optimizer is not an
    optimizer instance, (3) raises a type error when the optimizer
    resolves to an instance and the flag is not a boolean, and
    (4) succeeds for an optimizer instance and a boolean flag. *)
Theorem init_outcomes (optimizer sequential_update name : PyVal)
    (kwargs : gmap string PyVal) (k : K) :
  super_init name kwargs = Ok k ->
  (forall e, resolve_identifier optimizer = Raise e ->
     __init__ optimizer sequential_update name kwargs = Raise e) /\
  (forall v, resolve_identifier optimizer = Ok v -> is_optimizer v = false ->
     is_type_error (__init__ optimizer sequential_update name kwargs)) /\
  (forall o, resolve_identifier optimizer = Ok (PyOptimizer o) ->
     is_bool sequential_update = false ->
     is_type_error (__init__ optimizer sequential_update name kwargs)) /\
  (forall o b, resolve_identifier optimizer = Ok (PyOptimizer o) ->
     sequential_update = PyBool b ->
     succeeds (__init__ optimizer sequential_update name kwargs)).
Proof.
  intros Hk. unfold __init__. rewrite Hk.
  repeat split.
  - intros e ->. reflexivity.
  - intros v -> Hv. destruct v; try discriminate; eexists; reflexivity.
  - intros o -> Hb.
    destruct sequential_update; try discriminate; eexists; reflexivity.
  - intros o b -> ->. eexists; reflexivity.
Qed.

End Construction.

Section Configuration.

Context {O K : Type} {BO : @BaseOptimizer O} {RG : @Registry O}
        {KB : @KerasBase O K}.

Lemma py_dict_rev (items : list (string * @PyVal O)) :
  py_dict items = list_to_map (reverse items).
Proof.
  unfold py_dict.
  induction items as [|kv items IH] using rev_ind; [reflexivity|].
  rewrite foldl_app, reverse_app. simpl. now rewrite IH.
Qed.

Lemma py_dict_items (m : gmap string (@PyVal O)) : py_dict (map_to_list m) = m.
Proof.
  rewrite py_dict_rev.
  rewrite <- (list_to_map_to_list m) at 2.
  apply list_to_map_proper.
  - rewrite fmap_reverse, reverse_Permutation. apply NoDup_fst_map_to_list.
  - apply reverse_Permutation.
Qed.

(** The dictionary built by [get_config]: the base-class fields with the
    two entries of the wrapper written over them. *)
Lemma get_config_eq (w : @Wrapper O K) :
  get_config w =
  <["sequential_update" := PyBool (_sequential_update w)]>
    (<["optimizer" := optimizers_serialize (_optimizer w)]>
       (super_get_config (_keras w))).
Proof.
  unfold get_config, py_dict. rewrite foldl_app.
  fold (py_dict (map_to_list (super_get_config (_keras w)))).
  now rewrite py_dict_items.
Qed.

(** C9: when the caller's mapping has an ['optimizer'] entry, [from_config]
    leaves that mapping without it, whatever the outcome of the call:
    the mapping afterwards is the original with the key deleted, so it
    differs from the original, no longer has the nested configuration and
    keeps every other entry; and the constructor is run on options that
    do not contain the key. *)
Theorem from_config_pops_optimizer (config : gmap string (@PyVal O))
    (custom_objects nested : PyVal) :
  config !! "optimizer" = Some nested ->
  let after := (from_config config custom_objects).2 in
  after = delete "optimizer" config /\
  after !! "optimizer" = None /\
  after <> config /\
  (forall key, key <> "optimizer" -> after !! key = config !! key) /\
  (forall o, optimizers_deserialize nested custom_objects = Ok o ->
     exists flag name kwargs,
       (from_config config custom_objects).1
       = __init__ (PyOptimizer o) flag name kwargs /\
       kwargs !! "optimizer" = None).
Proof.
  intros Hn after.
  assert (Hsnd : after = delete "optimizer" config).
  { unfold after, from_config. rewrite Hn.
    destruct (optimizers_deserialize nested custom_objects); reflexivity. }
  split; [exact Hsnd|]. rewrite Hsnd. split; [apply lookup_delete_eq|].
  split.
  { intros Heq. apply (f_equal (fun m => m !! "optimizer")) in Heq.
    rewrite lookup_delete_eq, Hn in Heq. discriminate. }
  split.
  { intros key Hk. now apply lookup_delete_ne. }
  intros o Ho. unfold from_config. rewrite Hn, Ho. simpl.
  do 3 eexists. split; [reflexivity|].
  rewrite !lookup_delete_ne by discriminate. apply lookup_delete_eq.
Qed.

(** C4: the configuration of a wrapper holds the serialized wrapped
    optimizer under ['optimizer'], the flag under ['sequential_update'],
    and the base-class fields under every other key.  When the registry
    reads back what it wrote for the wrapped optimizer and the base-class
    initialiser accepts the fields its own [get_config] produced,
    [from_config (get_config w)] returns a wrapper with the same nested
    optimizer configuration and the same flag. *)
Theorem config_round_trip (w : @Wrapper O K) (custom_objects : PyVal)
    (o' : BaseObj) (k' : K) :
  let base_config := super_get_config (_keras w) in
  optimizers_deserialize (optimizers_serialize (_optimizer w)) custom_objects
  = Ok o' ->
  optimizers_serialize o' = optimizers_serialize (_optimizer w) ->
  super_init (default (PyStr "AverageOptimizer") (base_config !! "name"))
             (delete "name" (delete "sequential_update"
                               (delete "optimizer" base_config))) = Ok k' ->
  get_config w !! "optimizer" = Some (optimizers_serialize (_optimizer w)) /\
  get_config w !! "sequential_update" = Some (PyBool (_sequential_update w)) /\
  (forall key, key <> "optimizer" -> key <> "sequential_update" ->
     get_config w !! key = base_config !! key) /\
  exists w',
    (from_config (get_config w) custom_objects).1 = Ok w' /\
    optimizers_serialize (_optimizer w') = optimizers_serialize (_optimizer w) /\
    _sequential_update w' = _sequential_update w /\
    get_config w' !! "optimizer" = get_config w !! "optimizer" /\
    get_config w' !! "sequential_update" = get_config w !! "sequential_update".
Proof.
  intros base_config Hde Hser Hinit.
  assert (Hopt : get_config w !! "optimizer" =
                 Some (optimizers_serialize (_optimizer w))).
  { rewrite get_config_eq, lookup_insert_ne by discriminate.
    apply lookup_insert_eq. }
  assert (Hseq : get_config w !! "sequential_update" =
                 Some (PyBool (_sequential_update w))).
  { rewrite get_config_eq. apply lookup_insert_eq. }
  assert (Hrest : forall key, key <> "optimizer" -> key <> "sequential_update" ->
                    get_config w !! key = base_config !! key).
  { intros key H1 H2. rewrite get_config_eq.
    now rewrite !lookup_insert_ne by congruence. }
  split; [exact Hopt|]. split; [exact Hseq|]. split; [exact Hrest|].
  unfold from_config. rewrite Hopt, Hde.
  rewrite lookup_delete_ne, Hseq by discriminate.
  rewrite lookup_delete_ne, Hrest by discriminate.
  fold base_config. simpl.
  assert (Hkw : delete "name" (delete "sequential_update"
                                 (delete "optimizer" (get_config w))) =
                delete "name" (delete "sequential_update"
                                 (delete "optimizer" base_config))).
  { apply map_eq. intros key.
    destruct (decide (key = "name")) as [->|H0];
      [now rewrite !lookup_delete_eq|].
    rewrite !(lookup_delete_ne _ "name") by congruence.
    destruct (decide (key = "sequential_update")) as [->|H1];
      [now rewrite !lookup_delete_eq|].
    rewrite !(lookup_delete_ne _ "sequential_update") by congruence.
    destruct (decide (key = "optimizer")) as [->|H2];
      [now rewrite !lookup_delete_eq|].
    rewrite !(lookup_delete_ne _ "optimizer") by congruence.
    now apply Hrest. }
  rewrite Hkw. unfold __init__. rewrite Hinit. simpl.
  eexists. split; [reflexivity|].
  rewrite !get_config_eq. simpl.
  split; [exact Hser|]. split; [reflexivity|].
  split.
  - rewrite !(lookup_insert_ne _ "sequential_update") by discriminate.
    rewrite !lookup_insert_eq. now rewrite Hser.
  - now rewrite !lookup_insert_eq.
Qed.

End Configuration.

Section Slots.

Context {O K : Type} {BO : @BaseOptimizer O}.

Implicit Types (env : @Env O K) (var s : Var) (V : list Var).

Lemma same_frame_refl env : same_frame env env.
Proof. repeat split. Qed.

Lemma same_frame_trans env1 env2 env3 :
  same_frame env1 env2 -> same_frame env2 env3 -> same_frame env1 env3.
Proof.
  unfold same_frame. intros (a1 & a2 & a3 & a4 & a5) (b1 & b2 & b3 & b4 & b5).
  repeat split; congruence.
Qed.

Lemma average_slot_insert_same (w : @Wrapper O K) var slot_dict s names ws :
  slot_dict !! "average" = Some s ->
  average_slot (with_slots (<[v_id var := slot_dict]> (_slots w)) names ws w) var
  = Some s.
Proof. intros H. unfold average_slot. simpl. now rewrite lookup_insert_eq. Qed.

Lemma average_slot_insert_other (w : @Wrapper O K) var var' slot_dict names ws :
  v_id var' <> v_id var ->
  average_slot (with_slots (<[v_id var := slot_dict]> (_slots w)) names ws w) var'
  = average_slot w var'.
Proof.
  intros H. unfold average_slot. simpl. now rewrite lookup_insert_ne by congruence.
Qed.

(** [add_slot] on a variable that already has its average slot returns
    that slot and changes neither table, weights nor store. *)
Lemma add_slot_existing env var s :
  average_slot (self env) var = Some s ->
  exists env',
    add_slot var "average" env = (Ok s, env') /\
    _slots (self env') = _slots (self env) /\
    _weights (self env') = _weights (self env) /\
    store env' = store env /\
    same_frame env env' /\
    trace env' = trace env ++ [EvAddSlot var "average"].
Proof.
  unfold average_slot. intros H.
  destruct (_slots (self env) !! v_id var) as [d|] eqn:Hd; [|discriminate].
  unfold add_slot. simpl. rewrite Hd. simpl. rewrite H.
  eexists. split; [reflexivity|]. simpl.
  split; [now apply insert_id|]. repeat split.
Qed.

(** [add_slot] on a variable without an average slot creates one: a
    fresh, non-trainable variable of the same shape and dtype, holding
    zeros, appended to the weights. *)
Lemma add_slot_fresh env var :
  average_slot (self env) var = None ->
  exists env' s,
    add_slot var "average" env = (Ok s, env') /\
    average_slot (self env') var = Some s /\
    v_shape s = v_shape var /\ v_dtype s = v_dtype var /\
    v_trainable s = false /\
    store env !! v_id s = None /\
    store env' = <[v_id s := zeros (v_shape var) (v_dtype var)]> (store env) /\
    _weights (self env') = _weights (self env) ++ [s] /\
    (forall var', v_id var' <> v_id var ->
       average_slot (self env') var' = average_slot (self env) var') /\
    same_frame env env' /\
    trace env' = trace env ++ [EvAddSlot var "average"].
Proof.
  unfold average_slot at 1. intros H.
  assert (Hnone : default ∅ (_slots (self env) !! v_id var) !! "average"
                  = @None Var).
  { destruct (_slots (self env) !! v_id var); [exact H|apply lookup_empty]. }
  unfold add_slot. simpl. rewrite Hnone.
  do 2 eexists. split; [reflexivity|]. simpl.
  split.
  { apply average_slot_insert_same. apply lookup_insert_eq. }
  split; [reflexivity|]. split; [reflexivity|]. split; [reflexivity|].
  split.
  { apply not_elem_of_dom. apply is_fresh. }
  split; [reflexivity|]. split; [reflexivity|].
  split.
  { intros var' Hne. now apply average_slot_insert_other. }
  split; [repeat split|reflexivity].
Qed.

Lemma average_slot_by_id (w : @Wrapper O K) var var' :
  v_id var = v_id var' -> average_slot w var = average_slot w var'.
Proof. intros H. unfold average_slot. now rewrite H. Qed.

(** The loop of [_create_slots]: it always completes, keeps every slot
    and every stored value that was there, and leaves each listed
    variable with an average slot; a slot it had to create is
    non-trainable, has the shape and dtype of a listed variable with the
    same identity, and holds zeros. *)
Lemma for_each_add_slot V : forall env,
  exists env',
    for_each V add_average_slot env = (Ok tt, env') /\
    same_frame env env' /\
    trace env' = trace env ++ map (fun v => EvAddSlot v "average") V /\
    (forall var s, average_slot (self env) var = Some s ->
       average_slot (self env') var = Some s) /\
    (forall id t, store env !! id = Some t -> store env' !! id = Some t) /\
    (forall v, v ∈ V ->
       exists s, average_slot (self env') v = Some s /\
         (average_slot (self env) v = None ->
            exists v0, v0 ∈ V /\ v_id v0 = v_id v /\
              v_shape s = v_shape v0 /\ v_dtype s = v_dtype v0 /\
              v_trainable s = false /\
              store env !! v_id s = None /\
              store env' !! v_id s = Some (zeros (v_shape v0) (v_dtype v0)))).
Proof.
  induction V as [|v V IH]; intros env.
  - exists env. simpl. split; [reflexivity|]. split; [apply same_frame_refl|].
    split; [now rewrite app_nil_r|]. split; [auto|]. split; [auto|].
    intros v Hv. inversion Hv.
  - simpl. unfold add_average_slot at 1. unfold bind.
    destruct (average_slot (self env) v) as [s|] eqn:Hv.
    + destruct (add_slot_existing env v s Hv)
        as (env1 & Hadd & Hsl & Hws & Hst & Hfr & Htr).
      rewrite Hadd. simpl.
      destruct (IH env1) as (env' & Hrun & Hfr' & Htr' & Hmono & Hstore & Hall).
      assert (Havg : forall var, average_slot (self env1) var
                                 = average_slot (self env) var).
      { intros var. unfold average_slot. now rewrite Hsl. }
      exists env'. split; [exact Hrun|].
      split; [eapply same_frame_trans; eassumption|].
      split; [rewrite Htr', Htr, <- app_assoc; reflexivity|].
      split; [intros var s0 H0; apply Hmono; now rewrite Havg|].
      split; [intros id t H0; apply Hstore; now rewrite Hst|].
      intros v' Hin. apply elem_of_cons in Hin as [->|Hin].
      * exists s. split; [apply Hmono; now rewrite Havg|]. congruence.
      * destruct (Hall v' Hin) as (s' & Hs' & Hnew). exists s'.
        split; [exact Hs'|]. intros Hnone. rewrite <- Havg in Hnone.
        destruct (Hnew Hnone) as (v0 & Hv0 & Hid & H1 & H2 & H3 & H4 & H5).
        exists v0. rewrite <- Hst.
        repeat split; try assumption. now apply list_elem_of_further.
    + destruct (add_slot_fresh env v Hv)
        as (env1 & s & Hadd & Hs & Hsh & Hdt & Htrn & Hfresh & Hst & Hws
            & Hother & Hfr & Htr).
      rewrite Hadd. simpl.
      destruct (IH env1) as (env' & Hrun & Hfr' & Htr' & Hmono & Hstore & Hall).
      assert (Hkeep : forall id t, store env !! id = Some t ->
                                   store env1 !! id = Some t).
      { intros id t H0. rewrite Hst. rewrite lookup_insert_ne; [exact H0|].
        intros Heq. rewrite <- Heq in H0. congruence. }
      exists env'. split; [exact Hrun|].
      split; [eapply same_frame_trans; eassumption|].
      split; [rewrite Htr', Htr, <- app_assoc; reflexivity|].
      split.
      { intros var s0 H0. apply Hmono.
        destruct (decide (v_id var = v_id v)) as [Heq|Hne].
        - rewrite (average_slot_by_id _ _ _ Heq) in H0. congruence.
        - now rewrite Hother. }
      split; [intros id t H0; apply Hstore; now apply Hkeep|].
      assert (Hhead : store env' !! v_id s
                      = Some (zeros (v_shape v) (v_dtype v))).
      { apply Hstore. rewrite Hst. apply lookup_insert_eq. }
      intros v' Hin.
      destruct (decide (v_id v' = v_id v)) as [Heq|Hne].
      * exists s. split.
        { rewrite (average_slot_by_id _ _ _ Heq). now apply Hmono. }
        intros _. exists v. repeat split; try assumption; try congruence.
        apply list_elem_of_here.
      * apply elem_of_cons in Hin as [->|Hin]; [congruence|].
        destruct (Hall v' Hin) as (s' & Hs' & Hnew). exists s'.
        split; [exact Hs'|]. intros Hnone. rewrite <- Hother in Hnone by exact Hne.
        destruct (Hnew Hnone) as (v0 & Hv0 & Hid & H1 & H2 & H3 & H4 & H5).
        exists v0. repeat split; try assumption.
        { now apply list_elem_of_further. }
        rewrite Hst in H4. now apply lookup_insert_None in H4 as [H4 _].
Qed.

(** When every listed variable already has its average slot, the loop
    changes nothing but the call log. *)
Lemma for_each_add_slot_existing V : forall env,
  (forall v, v ∈ V -> is_Some (average_slot (self env) v)) ->
  exists env',
    for_each V add_average_slot env = (Ok tt, env') /\
    _slots (self env') = _slots (self env) /\
    _weights (self env') = _weights (self env) /\
    store env' = store env /\
    same_frame env env' /\
    trace env' = trace env ++ map (fun v => EvAddSlot v "average") V.
Proof.
  induction V as [|v V IH]; intros env Hall.
  - exists env. simpl. repeat split. now rewrite app_nil_r.
  - destruct (Hall v (list_elem_of_here _ _)) as [s Hs].
    destruct (add_slot_existing env v s Hs)
      as (env1 & Hadd & Hsl & Hws & Hst & Hfr & Htr).
    destruct (IH env1) as (env' & Hrun & Hsl' & Hws' & Hst' & Hfr' & Htr').
    { intros v' Hin. unfold average_slot. rewrite Hsl.
      apply Hall. now apply list_elem_of_further. }
    exists env'. simpl. unfold add_average_slot at 1. unfold bind.
    rewrite Hadd. simpl. split; [exact Hrun|].
    split; [congruence|]. split; [congruence|]. split; [congruence|].
    split; [eapply same_frame_trans; eassumption|].
    rewrite Htr', Htr, <- app_assoc. reflexivity.
Qed.

Lemma create_slots_unfold V env r inner st :
  base_create_slots V (_optimizer (self env)) (store env) = (r, inner, st) ->
  let env_b :=
    log (EvBaseCreateSlots V)
      (set_store st
         (set_self (with_optimizer
                      {| b_iterations := b_iterations (_optimizer (self env));
                         b_inner := inner |} (self env)) env)) in
  _create_slots V env =
  match r with
  | Ok _ => for_each V add_average_slot env_b
  | Raise e => (Raise e, env_b)
  end.
Proof.
  intros Hb. unfold _create_slots, bind, call_hook. rewrite Hb. simpl.
  destruct r; reflexivity.
Qed.

(** An exception of the wrapped optimizer's slot creation is passed on
    and no average slot is added. *)
Lemma create_slots_base_raises V env e inner st :
  base_create_slots V (_optimizer (self env)) (store env) = (Raise e, inner, st) ->
  exists env', _create_slots V env = (Raise e, env') /\
               _slots (self env') = _slots (self env).
Proof.
  intros Hb. rewrite (create_slots_unfold _ _ _ _ _ Hb). simpl.
  eexists. split; reflexivity.
Qed.

Lemma zeros_spec (shape : list nat) (dtype : DType) :
  t_shape (zeros shape dtype) = shape /\
  t_dtype (zeros shape dtype) = dtype /\
  length (t_data (zeros shape dtype)) = foldr Nat.mul 1%nat shape /\
  Forall (fun x => x = 0) (t_data (zeros shape dtype)).
Proof.
  unfold zeros, num_elements. simpl.
  split; [reflexivity|]. split; [reflexivity|].
  split; [apply repeat_length|].
  apply Forall_forall. intros x Hx. apply list_elem_of_In in Hx.
  now apply repeat_spec in Hx.
Qed.

(** C5: when the wrapped optimizer's own slot creation returns,
    [_create_slots V] returns too; the wrapped optimizer's hook has been
    called with the same list [V] (its result is the new private state,
    and the call is the first entry added to the log, followed by one
    [add_slot] per listed variable); every variable of [V] then has an
    average slot of its own shape and dtype; the tensor stored for a slot
    created by this call has the variable's shape and dtype and one zero
    per element, and a slot that was there before is the same variable
    with the content the hook left; and a later [_create_slots V] on any
    state whose slot table still has these slots leaves the slot table
    and the weight list as they are and the store exactly as the wrapped
    optimizer's hook returned it. *)
Theorem create_slots_spec V env inner st :
  base_create_slots V (_optimizer (self env)) (store env) = (Ok tt, inner, st) ->
  (forall v v', v ∈ V -> v' ∈ V -> v_id v = v_id v' ->
     v_shape v = v_shape v' /\ v_dtype v = v_dtype v') ->
  (forall v s, v ∈ V -> average_slot (self env) v = Some s ->
     v_shape s = v_shape v /\ v_dtype s = v_dtype v) ->
  exists env1,
    _create_slots V env = (Ok tt, env1) /\
    b_inner (_optimizer (self env1)) = inner /\
    trace env1 = trace env ++ EvBaseCreateSlots V
                   :: map (fun v => EvAddSlot v "average") V /\
    (forall v, v ∈ V ->
       exists s, average_slot (self env1) v = Some s /\
                 v_shape s = v_shape v /\ v_dtype s = v_dtype v /\
                 (average_slot (self env) v = None ->
                    exists t, store env1 !! v_id s = Some t /\
                      t_shape t = v_shape v /\ t_dtype t = v_dtype v /\
                      length (t_data t) = foldr Nat.mul 1%nat (v_shape v) /\
                      Forall (fun x => x = 0) (t_data t)) /\
                 (forall s0 t, average_slot (self env) v = Some s0 ->
                    st !! v_id s0 = Some t ->
                    s = s0 /\ store env1 !! v_id s0 = Some t)) /\
    (forall env2 inner2 st2,
       (forall v, v ∈ V ->
          average_slot (self env2) v = average_slot (self env1) v) ->
       base_create_slots V (_optimizer (self env2)) (store env2)
       = (Ok tt, inner2, st2) ->
       exists env3,
         _create_slots V env2 = (Ok tt, env3) /\
         b_inner (_optimizer (self env3)) = inner2 /\
         _slots (self env3) = _slots (self env2) /\
         _weights (self env3) = _weights (self env2) /\
         store env3 = st2).
Proof.
  intros Hb Hids Hpre.
  rewrite (create_slots_unfold _ _ _ _ _ Hb). cbv zeta.
  set (env_b := log _ _).
  destruct (for_each_add_slot V env_b)
    as (env1 & Hrun & Hfr & Htr & Hmono & Hstore & Hall).
  exists env1. split; [exact Hrun|].
  destruct Hfr as (Hopt & _).
  split; [now rewrite Hopt|].
  split; [rewrite Htr; subst env_b; simpl; now rewrite <- app_assoc|].
  assert (Hslots : forall v, v ∈ V ->
            exists s, average_slot (self env1) v = Some s /\
                      v_shape s = v_shape v /\ v_dtype s = v_dtype v /\
                      (average_slot (self env) v = None ->
                         exists t, store env1 !! v_id s = Some t /\
                           t_shape t = v_shape v /\ t_dtype t = v_dtype v /\
                           length (t_data t)
                           = foldr Nat.mul 1%nat (v_shape v) /\
                           Forall (fun x => x = 0) (t_data t)) /\
                      (forall s0 t, average_slot (self env) v = Some s0 ->
                         st !! v_id s0 = Some t ->
                         s = s0 /\ store env1 !! v_id s0 = Some t)).
  { intros v Hv. destruct (Hall v Hv) as (s & Hs & Hnew). exists s.
    split; [exact Hs|].
    destruct (average_slot (self env) v) as [s0|] eqn:H0.
    - assert (s = s0) as ->.
      { specialize (Hmono v s0 H0). congruence. }
      destruct (Hpre v s0 Hv H0) as [H1 H2].
      split; [exact H1|]. split; [exact H2|]. split; [discriminate|].
      intros s1 t [= <-] Ht. split; [reflexivity|]. now apply Hstore.
    - destruct (Hnew H0) as (v0 & Hv0 & Hid & H1 & H2 & _ & _ & H5).
      destruct (Hids v0 v Hv0 Hv Hid) as [E1 E2].
      split; [congruence|]. split; [congruence|]. split; [|discriminate].
      intros _. exists (zeros (v_shape v0) (v_dtype v0)).
      split; [exact H5|]. rewrite <- E1, <- E2. apply zeros_spec. }
  split; [exact Hslots|].
  intros env2 inner2 st2 Hsame Hb2.
  rewrite (create_slots_unfold _ _ _ _ _ Hb2). cbv zeta.
  set (env_b2 := log _ _).
  destruct (for_each_add_slot_existing V env_b2)
    as (env3 & Hrun3 & Hsl3 & Hws3 & Hst3 & Hfr3 & _).
  { intros v Hv. destruct (Hslots v Hv) as (s & Hs & _).
    exists s. subst env_b2. simpl.
    change (average_slot (self env2) v = Some s). now rewrite Hsame. }
  exists env3. split; [exact Hrun3|].
  destruct Hfr3 as (Hopt3 & _).
  split; [now rewrite Hopt3|]. split; [exact Hsl3|].
  split; [exact Hws3|exact Hst3].
Qed.

End Slots.

Section Assignment.

Context {O K : Type}.

Implicit Types (env : @Env O K) (var s : Var) (V : list Var).

Lemma get_slot_found env var s :
  average_slot (self env) var = Some s ->
  get_slot var "average" env = (Ok s, log (EvGetSlot var "average") env).
Proof.
  unfold average_slot, get_slot. simpl.
  destruct (_slots (self env) !! v_id var) as [d|]; [|discriminate].
  now intros ->.
Qed.

Lemma get_slot_missing env var :
  average_slot (self env) var = None ->
  exists msg, get_slot var "average" env
              = (Raise (KeyError msg), log (EvGetSlot var "average") env).
Proof.
  unfold average_slot, get_slot. simpl.
  destruct (_slots (self env) !! v_id var) as [d|]; [|eauto].
  intros ->. eauto.
Qed.

(** The comprehension of [assign_average_vars]: one slot lookup and one
    assignment per trainable variable, in list order; nothing at all for
    the others. *)
Lemma list_comp_assign_average V : forall env,
  (forall v, v ∈ V -> v_trainable v = true ->
     is_Some (average_slot (self env) v)) ->
  exists env',
    list_comp V v_trainable assign_average env
    = (Ok (average_assignments (self env) (scope env) V), env') /\
    self env' = self env /\ store env' = store env /\
    scope env' = scope env /\
    trace env' = trace env
                 ++ map (fun v => EvGetSlot v "average") (List.filter v_trainable V).
Proof.
  induction V as [|v V IH]; intros env Hall.
  - exists env. simpl. repeat split. now rewrite app_nil_r.
  - simpl. destruct (v_trainable v) eqn:Htr.
    + destruct (Hall v (list_elem_of_here _ _) Htr) as [s Hs].
      unfold assign_average at 1. unfold bind at 1 2.
      rewrite (get_slot_found _ _ _ Hs). unfold assign at 1. simpl.
      destruct (IH (log (EvGetSlot v "average") env))
        as (env' & Hrun & Hself & Hst & Hsc & Htrace).
      { intros v' Hin. apply Hall. now apply list_elem_of_further. }
      unfold bind. rewrite Hrun. simpl. rewrite Hs. simpl.
      exists env'. repeat split; try assumption.
      rewrite Htrace. simpl. now rewrite <- app_assoc.
    + apply IH. intros v' Hin. apply Hall. now apply list_elem_of_further.
Qed.

Lemma assigned_ids_elem (ops : list Op) (id : positive) :
  id ∈ assigned_ids ops <->
  exists o d s, o ∈ ops /\ op_kind o = KAssign d s /\ v_id d = id.
Proof.
  unfold assigned_ids. rewrite list_elem_of_omap. split.
  - intros (o & Ho & Hk). destruct (op_kind o) eqn:E; try discriminate.
    injection Hk as <-. do 3 eexists. split; [exact Ho|].
    split; [exact E|reflexivity].
  - intros (o & d & s0 & Ho & Hk & <-). exists o. split; [exact Ho|].
    now rewrite Hk.
Qed.

(** Assignments whose sources are never assigned to can run in any order:
    each assigned variable ends with the initial value of the source of
    one of its assignments, and everything else is left as it was. *)
Lemma exec_assignments (written : positive -> Prop) (st0 : Store)
    (ops : list Op) : forall st : Store,
  (forall id, ~ written id -> st !! id = st0 !! id) ->
  (forall o, o ∈ ops ->
     exists d s t, op_kind o = KAssign d s /\ written (v_id d) /\
                   ~ written (v_id s) /\ st0 !! v_id s = Some t) ->
  exists st',
    exec_ops ops st = Some st' /\
    (forall id, ~ written id -> st' !! id = st0 !! id) /\
    (forall id, id ∈ assigned_ids ops ->
       exists o d s, o ∈ ops /\ op_kind o = KAssign d s /\ v_id d = id /\
                     st' !! id = st0 !! v_id s) /\
    (forall id, id ∉ assigned_ids ops -> st' !! id = st !! id).
Proof.
  induction ops as [|o ops IH]; intros st Hagree Hops.
  - exists st. simpl. split; [reflexivity|]. split; [exact Hagree|].
    split; [|reflexivity]. intros id Hin. inversion Hin.
  - destruct (Hops o (list_elem_of_here _ _)) as (d & s & t & Hk & Hd & Hs & Ht).
    simpl. rewrite Hk. simpl. rewrite (Hagree _ Hs), Ht.
    destruct (IH (<[v_id d := t]> st)) as (st' & Hrun & Hagree' & Hw & Hnw).
    { intros id Hid. rewrite lookup_insert_ne; [now apply Hagree|].
      intros Heq. apply Hid. now rewrite <- Heq. }
    { intros o' Hin. apply Hops. now apply list_elem_of_further. }
    exists st'. split; [exact Hrun|]. split; [exact Hagree'|]. split.
    + intros id Hin.
      destruct (decide (id ∈ assigned_ids ops)) as [Htail|Htail].
      * destruct (Hw id Htail) as (o' & d' & s' & Ho' & Hk' & Hid & Hval).
        exists o', d', s'. split; [now apply list_elem_of_further|]. auto.
      * apply elem_of_cons in Hin as [->|Hin]; [|contradiction].
        exists o, d, s. split; [apply list_elem_of_here|].
        split; [exact Hk|]. split; [reflexivity|].
        rewrite (Hnw _ Htail), lookup_insert_eq. now rewrite Ht.
    + intros id Hid. apply not_elem_of_cons in Hid as [Hne Htail].
      rewrite (Hnw id Htail). now rewrite lookup_insert_ne by congruence.
Qed.

Lemma average_assignments_elem (w : @Wrapper O K) (sc : list Op) V (o : Op) :
  o ∈ average_assignments w sc V <->
  exists v s, v ∈ V /\ v_trainable v = true /\ average_slot w v = Some s /\
              o = MkOp (KAssign v s) sc.
Proof.
  unfold average_assignments. rewrite list_elem_of_omap. split.
  - intros (v & Hv & Ho). destruct (v_trainable v) eqn:Htr; [|discriminate].
    destruct (average_slot w v) as [s|] eqn:Hs; [|discriminate].
    injection Ho as <-. eauto 6.
  - intros (v & s & Hv & Htr & Hs & ->). exists v. split; [exact Hv|].
    now rewrite Htr, Hs.
Qed.

(** C6: when every trainable variable of the list has an average slot,
    [assign_average_vars] returns a handle that waits for exactly one
    assignment per trainable variable of the list, from that variable's
    average slot, and is not ready before all of them have completed; the
    non-trainable ones cause no slot lookup and no assignment, whether
    they have a slot or not.  Provided the slots are
    stored and are not themselves assigned to, running the assignments in
    any order gives every trainable variable of the list the content its
    average slot had before and leaves every other variable as it was. *)
Theorem assign_average_vars_spec V env :
  (forall v, v ∈ V -> v_trainable v = true ->
     is_Some (average_slot (self env) v)) ->
  let assigns := average_assignments (self env) (scope env) V in
  exists env',
    assign_average_vars V env = (Ok (MkOp KNoOp (scope env ++ assigns)), env') /\
    self env' = self env /\ store env' = store env /\ scope env' = scope env /\
    trace env' = trace env
                 ++ map (fun v => EvGetSlot v "average") (List.filter v_trainable V) /\
    (forall o, o ∈ assigns <->
       exists v s, v ∈ V /\ v_trainable v = true /\
                   average_slot (self env) v = Some s /\
                   o = MkOp (KAssign v s) (scope env)) /\
    (forall completed o,
       ready completed (MkOp KNoOp (scope env ++ assigns)) ->
       o ∈ assigns -> In o completed) /\
    (forall order,
       order ≡ₚ assigns ->
       (forall v v' s, v ∈ V -> v' ∈ V -> v_trainable v = true ->
          v_trainable v' = true -> average_slot (self env) v = Some s ->
          v_id s <> v_id v') ->
       (forall v s, v ∈ V -> v_trainable v = true ->
          average_slot (self env) v = Some s -> is_Some (store env !! v_id s)) ->
       exists st',
         exec_ops order (store env) = Some st' /\
         (forall v s, v ∈ V -> v_trainable v = true ->
            average_slot (self env) v = Some s ->
            st' !! v_id v = store env !! v_id s) /\
         (forall id, (forall v, v ∈ V -> v_trainable v = true -> v_id v <> id) ->
            st' !! id = store env !! id)).
Proof.
  intros Hall assigns.
  destruct (list_comp_assign_average V env Hall)
    as (env' & Hrun & Hself & Hst & Hsc & Htr).
  exists env'. split.
  { unfold assign_average_vars, bind. rewrite Hrun. unfold group.
    now rewrite Hsc. }
  split; [exact Hself|]. split; [exact Hst|]. split; [exact Hsc|].
  split; [exact Htr|]. split; [apply average_assignments_elem|].
  split.
  { intros completed o Hready Ho. apply Hready. simpl.
    apply in_or_app. right. now apply list_elem_of_In. }
  intros order Hperm Hdisj Hstored.
  set (written := fun id => exists v, v ∈ V /\ v_trainable v = true /\ v_id v = id).
  assert (Hmem : forall o, o ∈ order <->
            exists v s, v ∈ V /\ v_trainable v = true /\
                        average_slot (self env) v = Some s /\
                        o = MkOp (KAssign v s) (scope env)).
  { intros o. rewrite Hperm. apply average_assignments_elem. }
  destruct (exec_assignments written (store env) order (store env))
    as (st' & Hexec & Hagree & Hw & Hnw).
  { reflexivity. }
  { intros o Ho. apply Hmem in Ho as (v & s & Hv & Htrn & Hs & ->).
    destruct (Hstored v s Hv Htrn Hs) as [t Ht].
    exists v, s, t. split; [reflexivity|]. split; [exists v; auto|].
    split; [|exact Ht].
    intros (v' & Hv' & Htrn' & Hid). now apply (Hdisj v v' s). }
  exists st'. split; [exact Hexec|]. split.
  - intros v s Hv Htrn Hs.
    destruct (Hw (v_id v)) as (o & d & s' & Ho & Hk & Hid & Hval).
    { apply assigned_ids_elem. exists (MkOp (KAssign v s) (scope env)), v, s.
      split; [|auto]. apply Hmem. eauto 6. }
    apply Hmem in Ho as (v2 & s2 & Hv2 & Htrn2 & Hs2 & ->).
    simpl in Hk. injection Hk as <- <-.
    rewrite (average_slot_by_id _ _ _ Hid) in Hs2.
    rewrite Hval. congruence.
  - intros id Hid. apply Hagree.
    intros (v & Hv & Htrn & Heq). now apply (Hid v).
Qed.

(** C10: on the empty list, and on any list without a trainable variable,
    [assign_average_vars] returns normally, whatever the slot table holds;
    it looks up no slot (the call log is unchanged, like the rest of the
    state); and the handle it returns groups no assignment at all: it
    waits for nothing beyond the enclosing scope, so running what it
    groups leaves the store as it is. *)
Theorem assign_average_vars_nothing_trainable V env :
  (forall v, v ∈ V -> v_trainable v = false) ->
  average_assignments (self env) (scope env) V = [] /\
  assign_average_vars V env = (Ok (MkOp KNoOp (scope env ++ [])), env) /\
  exec_ops (average_assignments (self env) (scope env) V) (store env)
  = Some (store env).
Proof.
  intros Hall.
  assert (Hcomp : forall env0 : @Env O K,
            list_comp V v_trainable assign_average env0 = (Ok [], env0)).
  { induction V as [|v V IH]; intros env0; [reflexivity|].
    simpl. rewrite (Hall v (list_elem_of_here _ _)).
    apply IH. intros v' Hin. apply Hall. now apply list_elem_of_further. }
  assert (Hnil : average_assignments (self env) (scope env) V = []).
  { clear Hcomp. induction V as [|v V IH]; [reflexivity|].
    unfold average_assignments. simpl.
    rewrite (Hall v (list_elem_of_here _ _)).
    apply IH. intros v' Hin. apply Hall. now apply list_elem_of_further. }
  split; [exact Hnil|]. split.
  - unfold assign_average_vars, bind. now rewrite Hcomp.
  - now rewrite Hnil.
Qed.

End Assignment.

Section Ordering.

Context {O K : Type} {BO : @BaseOptimizer O} {AR : AveragingRule}.

Implicit Types (env : @Env O K) (var s : Var).

(** The three handlers share one shape. *)
Lemma wrapper_apply_unfold (c : ApplyCall) env :
  wrapper_apply c env =
  bind (call_base_apply c)
       (fun train_op =>
          bind (_apply_average_op train_op (call_var c))
               (fun average_op => group [train_op; average_op])) env.
Proof. destruct c; reflexivity. Qed.

(** One handler, step by step, for any averaging rule. *)
Lemma wrapper_apply_steps (c : ApplyCall) env s (train_op avg : Op) :
  average_slot (self env) (call_var c) = Some s ->
  base_apply c (_optimizer (self env)) (scope env) = Ok train_op ->
  average_op (call_var c) s (inner_scope env train_op) = Ok avg ->
  exists env',
    wrapper_apply c env
    = (Ok (MkOp KNoOp (scope env ++ [train_op; avg])), env') /\
    trace env' = trace env ++ [EvBaseApply c (scope env);
                               EvGetSlot (call_var c) "average";
                               EvAverageOp (call_var c) s
                                 (inner_scope env train_op)] /\
    scope env' = scope env.
Proof.
  intros Hs Hbase Havg. unfold inner_scope in *.
  rewrite wrapper_apply_unfold.
  unfold bind at 1. unfold call_base_apply. rewrite Hbase.
  unfold bind at 1. unfold _apply_average_op, bind at 1.
  rewrite (get_slot_found (log (EvBaseApply c (scope env)) env) _ _ Hs). simpl.
  destruct (_sequential_update (self env)) eqn:Hseq.
  - unfold control_dependencies, call_average_op. simpl.
    rewrite Havg. unfold group. simpl.
    eexists. split; [reflexivity|]. simpl.
    split; [now rewrite <- !app_assoc|reflexivity].
  - unfold call_average_op. simpl. rewrite Havg. unfold group. simpl.
    eexists. split; [reflexivity|]. simpl.
    split; [now rewrite <- !app_assoc|reflexivity].
Qed.

(** Every operation created by code that runs in a scope waits for
    exactly the operations of that scope. *)
Lemma run_build_created (sc : list Op) (p : Build) (o : Op) :
  In o (run_build sc p).2 -> control_inputs o = sc.
Proof.
  induction p as [o'|e|kind next IH]; simpl; try contradiction.
  specialize (IH (MkOp kind sc)).
  destruct (run_build sc (next (MkOp kind sc))) as [r created]. simpl in *.
  intros [<-|Hin]; [reflexivity|now apply IH].
Qed.

End Ordering.

Section BuiltRules.

Context {O K : Type} {BO : @BaseOptimizer O}.

Implicit Types (env : @Env O K) (var s : Var).

Lemma handler_outcome_holds (rule : Var -> Var -> Build) (c : ApplyCall)
    env s (train_op avg : Op) :
  average_slot (self env) (call_var c) = Some s ->
  base_apply c (_optimizer (self env)) (scope env) = Ok train_op ->
  (run_build (inner_scope env train_op) (rule (call_var c) s)).1 = Ok avg ->
  handler_outcome rule env c s train_op avg
    (@wrapper_apply O K BO (built_rule rule) c env).
Proof.
  intros Hs Hbase Havg.
  destruct (wrapper_apply_steps (AR := built_rule rule) c env s train_op avg
              Hs Hbase Havg) as (env' & Hrun & Htrace & Hscope).
  unfold handler_outcome. rewrite Hrun. simpl.
  split; [reflexivity|]. split; [exact Htrace|]. split; [exact Hscope|].
  split.
  { intros completed Hready. split; apply Hready; simpl; apply in_or_app;
      right; [now left|right; now left]. }
  unfold inner_scope. split; intros Hseq; rewrite Hseq.
  - assert (Hin : In train_op (scope env ++ [train_op])).
    { apply in_or_app. right. now left. }
    split; [exact Hin|]. intros o Ho.
    apply run_build_created in Ho.
    split; [now rewrite Ho|].
    intros completed Hready. apply Hready. now rewrite Ho.
  - split; [reflexivity|]. intros o Ho. now apply run_build_created in Ho.
Qed.

(** C1: for a variable that has its average slot, each of the three
    handlers, when the wrapped optimizer's handler of the same kind (dense,
    sparse, sparse with duplicate indices) builds the train operation and
    the averaging rule returns its operation, calls the wrapped optimizer
    first, then the averaging rule, and returns a group that waits for
    both operations ([handler_outcome]).  With [_sequential_update] set,
    the averaging rule runs in the caller's scope extended by the train
    operation, so that every operation it creates has the train operation
    among its control inputs and is not ready before the train operation
    has completed; with the flag cleared it runs in the very scope the
    train operation was built in, and the operations it creates wait for
    that scope only. *)
Theorem apply_ordering (rule : Var -> Var -> Build) (grad : Tensor)
    (var : Var) (indices : Tensor) env s :
  average_slot (self env) var = Some s ->
  (forall train_op avg,
     base_resource_apply_dense grad var (_optimizer (self env)) (scope env)
     = Ok train_op ->
     (run_build (inner_scope env train_op) (rule var s)).1 = Ok avg ->
     handler_outcome rule env (ResourceApplyDense grad var) s train_op avg
       (@_resource_apply_dense O K BO (built_rule rule) grad var env)) /\
  (forall train_op avg,
     base_resource_apply_sparse grad var indices (_optimizer (self env))
       (scope env) = Ok train_op ->
     (run_build (inner_scope env train_op) (rule var s)).1 = Ok avg ->
     handler_outcome rule env (ResourceApplySparse grad var indices) s
       train_op avg
       (@_resource_apply_sparse O K BO (built_rule rule) grad var indices env)) /\
  (forall train_op avg,
     base_resource_apply_sparse_duplicate_indices grad var indices
       (_optimizer (self env)) (scope env) = Ok train_op ->
     (run_build (inner_scope env train_op) (rule var s)).1 = Ok avg ->
     handler_outcome rule env
       (ResourceApplySparseDuplicateIndices grad var indices) s train_op avg
       (@_resource_apply_sparse_duplicate_indices O K BO (built_rule rule)
          grad var indices env)).
Proof.
  intros Hs. split; [|split]; intros train_op avg Hbase Havg.
  - exact (handler_outcome_holds rule (ResourceApplyDense grad var) env s
             train_op avg Hs Hbase Havg).
  - exact (handler_outcome_holds rule (ResourceApplySparse grad var indices)
             env s train_op avg Hs Hbase Havg).
  - exact (handler_outcome_holds rule
             (ResourceApplySparseDuplicateIndices grad var indices)
             env s train_op avg Hs Hbase Havg).
Qed.

End BuiltRules.

Section Invariants.

Context {O K : Type} {BO : @BaseOptimizer O} {AR : AveragingRule}.

Implicit Types (env : @Env O K) (var s : Var) (P : @Wrapper O K -> Prop).

(** *** How [preserves] goes through the control structure *)

Lemma preserves_ret P {A} (a : A) : preserves P (@ret O K A a).
Proof. intros env H. exact H. Qed.

Lemma preserves_raise P {A} (e : Exn) : preserves P (@raise O K A e).
Proof. intros env H. exact H. Qed.

Lemma preserves_bind P {A B} (m : @M O K A) (f : A -> @M O K B) :
  preserves P m -> (forall a, preserves P (f a)) -> preserves P (bind m f).
Proof.
  intros Hm Hf env H. unfold bind. specialize (Hm env H).
  destruct (m env) as [[a|e] env1]; simpl in *; [now apply Hf|exact Hm].
Qed.

Lemma preserves_branch P {A} (test : @Env O K -> bool) (m1 m2 : @M O K A) :
  preserves P m1 -> preserves P m2 ->
  preserves P (fun env => if test env then m1 env else m2 env).
Proof. intros H1 H2 env. destruct (test env); [apply H1|apply H2]. Qed.

Lemma preserves_for_each P {A} (l : list A) (body : A -> @M O K unit) :
  (forall x, preserves P (body x)) -> preserves P (for_each l body).
Proof.
  intros Hb. induction l as [|x l IH]; simpl.
  - apply preserves_ret.
  - apply preserves_bind; [apply Hb|intros _; exact IH].
Qed.

Lemma preserves_map_m P {A B} (f : A -> @M O K B) (l : list A) :
  (forall x, preserves P (f x)) -> preserves P (map_m f l).
Proof.
  intros Hf. induction l as [|x l IH]; simpl.
  - apply preserves_ret.
  - apply preserves_bind; [apply Hf|intros y].
    apply preserves_bind; [exact IH|intros ys; apply preserves_ret].
Qed.

Lemma preserves_list_comp P {A B} (l : list A) (cond : A -> bool)
    (f : A -> @M O K B) :
  (forall x, preserves P (f x)) -> preserves P (list_comp l cond f).
Proof.
  intros Hf. induction l as [|x l IH]; simpl.
  - apply preserves_ret.
  - destruct (cond x); [|exact IH].
    apply preserves_bind; [apply Hf|intros y].
    apply preserves_bind; [exact IH|intros ys; apply preserves_ret].
Qed.

Lemma preserves_control_dependencies P {A} (deps : list Op)
    (body : @M O K A) :
  preserves P body -> preserves P (control_dependencies deps body).
Proof.
  intros Hb env H. unfold control_dependencies.
  specialize (Hb (set_scope (scope env ++ deps) env) H).
  destruct (body (set_scope (scope env ++ deps) env)) as [r env1].
  exact Hb.
Qed.

(** A computation that does not touch the wrapper object keeps all its
    properties. *)
Lemma preserves_untouched P {A} (m : @M O K A) :
  (forall env, self (m env).2 = self env) -> preserves P m.
Proof. intros Hm env H. now rewrite Hm. Qed.

Lemma get_slot_self var (slot_name : string) env :
  self (get_slot var slot_name env).2 = self env.
Proof.
  unfold get_slot. simpl.
  destruct (_slots (self env) !! v_id var) as [d|]; [|reflexivity].
  destruct (d !! slot_name); reflexivity.
Qed.

Lemma preserves_get_slot P var (slot_name : string) :
  preserves P (@get_slot O K var slot_name).
Proof. apply preserves_untouched, get_slot_self. Qed.

Lemma preserves_group P (inputs : list Op) : preserves P (@group O K inputs).
Proof. now apply preserves_untouched. Qed.

Lemma preserves_assign P var s : preserves P (@assign O K var s).
Proof. now apply preserves_untouched. Qed.

Lemma preserves_assign_add P var (delta : Z) :
  preserves P (@assign_add O K var delta).
Proof. now apply preserves_untouched. Qed.

Lemma preserves_call_base_apply P (c : ApplyCall) :
  preserves P (@call_base_apply O K BO c).
Proof. now apply preserves_untouched. Qed.

Lemma preserves_call_average_op P var s :
  preserves P (@call_average_op O K AR var s).
Proof. now apply preserves_untouched. Qed.

Create HintDb keep discriminated.
#[local] Hint Resolve preserves_ret preserves_raise preserves_for_each
  preserves_map_m preserves_list_comp preserves_control_dependencies
  preserves_get_slot preserves_group preserves_assign preserves_assign_add
  preserves_call_base_apply preserves_call_average_op : keep.
#[local] Hint Extern 2 (preserves _ (bind _ _)) =>
  apply preserves_bind; [|intros ?] : keep.

(** *** Stable properties are kept by every method *)

Section Methods.

Context P {HP : Stable P}.

Lemma preserves_call_hook {A} (ev : Event) (h : Hook A) :
  preserves P (@call_hook O K A ev h).
Proof.
  intros env H. unfold call_hook.
  destruct (h (_optimizer (self env)) (store env)) as [[r inner] st].
  simpl. now apply stable_hook.
Qed.

Lemma preserves_create_slots (var_list : list Var) :
  preserves P (@_create_slots O K BO var_list).
Proof.
  unfold _create_slots. apply preserves_bind; [apply preserves_call_hook|].
  intros _. apply preserves_for_each. intros x. unfold add_average_slot.
  apply preserves_bind; [apply stable_add_slot|auto with keep].
Qed.

Lemma preserves_create_hypers : preserves P (@_create_hypers O K BO).
Proof. apply preserves_call_hook. Qed.

Lemma preserves_prepare (var_list : list Var) :
  preserves P (@_prepare O K BO var_list).
Proof. apply preserves_call_hook. Qed.

Lemma preserves_apply_average_op (train_op : Op) var :
  preserves P (@_apply_average_op O K AR train_op var).
Proof.
  unfold _apply_average_op. apply preserves_bind; [auto with keep|intros a].
  apply (preserves_branch P (fun env => _sequential_update (self env)));
    auto with keep.
Qed.

Lemma preserves_wrapper_apply (c : ApplyCall) :
  preserves P (@wrapper_apply O K BO AR c).
Proof.
  intros env. rewrite wrapper_apply_unfold. revert env.
  apply preserves_bind; [auto with keep|intros t].
  apply preserves_bind; [apply preserves_apply_average_op|auto with keep].
Qed.

Lemma preserves_assign_average_vars (var_list : list Var) :
  preserves P (@assign_average_vars O K var_list).
Proof.
  unfold assign_average_vars, assign_average.
  apply preserves_bind; [|auto with keep].
  apply preserves_list_comp. intros x. auto with keep.
Qed.

Lemma preserves_update_ops (l : list (Grad * Var)) :
  preserves P (@map_m O K _ _ (@apply_grad_to_update_var O K BO AR) l).
Proof.
  apply preserves_map_m. intros [g v]. unfold apply_grad_to_update_var. simpl.
  destruct g as [g|values indices].
  - apply (preserves_wrapper_apply (ResourceApplyDense g v)).
  - apply (preserves_wrapper_apply
             (ResourceApplySparseDuplicateIndices values v indices)).
Qed.

Lemma preserves_super_apply_gradients (gvs : list (option Grad * Var))
    (name : option string) :
  preserves P (@super_apply_gradients O K BO AR gvs name).
Proof.
  unfold super_apply_gradients.
  destruct (_filter_grads gvs) as [l|e]; [|apply preserves_raise].
  apply preserves_bind; [apply stable_iterations|intros _].
  apply preserves_bind; [apply preserves_create_hypers|intros _].
  apply preserves_bind; [apply preserves_create_slots|intros _].
  destruct l as [|gv l']; [now apply preserves_untouched|].
  apply preserves_bind; [apply preserves_prepare|intros _].
  apply preserves_bind; [apply preserves_update_ops|intros ops].
  apply preserves_bind; [apply stable_iterations|intros it].
  auto with keep.
Qed.

Lemma apply_gradients_as_sync (gvs : list (option Grad * Var))
    (name : option string) env :
  apply_gradients gvs name env
  = bind sync_iterations (fun _ => super_apply_gradients gvs name) env.
Proof.
  unfold apply_gradients, sync_iterations, bind.
  destruct (iterations env) as [[it|e] env1]; [|reflexivity].
  destruct (set_base_iterations it env1) as [[u|e] env2]; reflexivity.
Qed.

Lemma preserves_apply_gradients (gvs : list (option Grad * Var))
    (name : option string) :
  preserves P (@apply_gradients O K BO AR gvs name).
Proof.
  intros env. rewrite apply_gradients_as_sync. revert env.
  apply preserves_bind; [apply stable_sync|intros _].
  apply preserves_super_apply_gradients.
Qed.

Lemma run_call_keeps (c : Call) env :
  P (self env) -> P (self (run_call c env)).
Proof.
  destruct c as [V| |V|g n|c|V|value]; simpl.
  - apply preserves_create_slots.
  - apply preserves_create_hypers.
  - apply preserves_prepare.
  - apply preserves_apply_gradients.
  - apply preserves_wrapper_apply.
  - apply preserves_assign_average_vars.
  - intros H. unfold set_lr.
    destruct (base_set_hyper "learning_rate" value (_optimizer (self env)));
      simpl; [now apply stable_hook|exact H].
Qed.

Lemma run_calls_keep (cs : list Call) : forall env,
  P (self env) -> P (self (run_calls cs env)).
Proof.
  induction cs as [|c cs IH]; intros env H; simpl; [exact H|].
  apply IH. now apply run_call_keeps.
Qed.

End Methods.

(** *** Three stable properties *)

Lemma has_counter_stable (it : Var) : Stable (@has_counter O K it).
Proof.
  split.
  - intros w inner H. exact H.
  - intros env H. unfold has_counter in *. unfold iterations.
    now rewrite H.
  - intros var slot_name env H. unfold has_counter in *. unfold add_slot.
    simpl. destruct (default ∅ (_slots (self env) !! v_id var) !! slot_name);
      exact H.
  - intros env H. unfold has_counter in *.
    unfold sync_iterations, bind, iterations. now rewrite H.
Qed.

Lemma shared_at_stable (it : Var) : Stable (@shared_at O K it).
Proof.
  split.
  - intros w inner H. exact H.
  - intros env [H1 H2]. unfold iterations. rewrite H1. now split.
  - intros var slot_name env [H1 H2]. unfold add_slot. simpl.
    destruct (default ∅ (_slots (self env) !! v_id var) !! slot_name);
      now split.
  - intros env [H1 H2]. unfold sync_iterations, bind, iterations.
    rewrite H1. simpl. now split.
Qed.

Lemma is_slot_with_optimizer (w : @Wrapper O K) (b : BaseObj) v :
  is_slot (with_optimizer b w) v <-> is_slot w v.
Proof. reflexivity. Qed.

Lemma own_weights_iterations env :
  own_weights_ok (self env) -> own_weights_ok (self (iterations env).2).
Proof.
  intros H. unfold iterations.
  destruct (_iterations (self env)) as [it|] eqn:Hit; [exact H|].
  intros v. simpl. rewrite elem_of_app, list_elem_of_singleton.
  rewrite (H v), Hit. unfold is_slot. simpl.
  split.
  - intros [[H0|H0]|H0]; [discriminate|now right|left; congruence].
  - intros [H0|H0]; [right; congruence|left; now right].
Qed.

Lemma own_weights_add_slot var (slot_name : string) env :
  own_weights_ok (self env) ->
  own_weights_ok (self (add_slot var slot_name env).2).
Proof.
  intros H. unfold add_slot. simpl.
  destruct (_slots (self env) !! v_id var) as [d|] eqn:Hd; simpl.
  - destruct (d !! slot_name) as [weight|] eqn:Hw; simpl.
    + intros v. simpl. rewrite (H v). unfold is_slot. simpl.
      now rewrite (insert_id _ _ _ Hd).
    + intros v. simpl. rewrite elem_of_app, list_elem_of_singleton.
      rewrite (H v). unfold is_slot. simpl. split.
      * intros [[H0|(key & d' & name & Hk & Hn)] | -> ].
        -- now left.
        -- right. destruct (decide (key = v_id var)) as [->|Hne].
           ++ exists (v_id var). eexists. exists name.
              split; [apply lookup_insert_eq|].
              assert (d' = d) as -> by congruence.
              rewrite lookup_insert_ne; [exact Hn|]. congruence.
           ++ exists key, d', name. now rewrite lookup_insert_ne by congruence.
        -- right. exists (v_id var). eexists. exists slot_name.
           split; [apply lookup_insert_eq|apply lookup_insert_eq].
      * intros [H0|(key & d' & name & Hk & Hn)]; [left; now left|].
        destruct (decide (key = v_id var)) as [->|Hne].
        -- rewrite lookup_insert_eq in Hk. injection Hk as <-.
           destruct (decide (name = slot_name)) as [->|Hne'].
           ++ rewrite lookup_insert_eq in Hn. right. congruence.
           ++ rewrite lookup_insert_ne in Hn by congruence.
              left. right. eauto.
        -- rewrite lookup_insert_ne in Hk by congruence.
           left. right. eauto.
  - rewrite lookup_empty. intros v. simpl.
    rewrite elem_of_app, list_elem_of_singleton.
    rewrite (H v). unfold is_slot. simpl. split.
    * intros [[H0|(key & d' & name & Hk & Hn)] | -> ].
      -- now left.
      -- right. exists key, d', name.
         rewrite lookup_insert_ne; [now split|]. congruence.
      -- right. exists (v_id var). eexists. exists slot_name.
         split; [apply lookup_insert_eq|apply lookup_insert_eq].
    * intros [H0|(key & d' & name & Hk & Hn)]; [left; now left|].
      destruct (decide (key = v_id var)) as [->|Hne].
      -- rewrite lookup_insert_eq in Hk. injection Hk as <-.
         destruct (decide (name = slot_name)) as [->|Hne'].
         ++ rewrite lookup_insert_eq in Hn. right. congruence.
         ++ rewrite lookup_insert_ne, lookup_empty in Hn by congruence.
            discriminate.
      -- rewrite lookup_insert_ne in Hk by congruence.
         left. right. eauto.
Qed.

Lemma own_weights_stable : Stable (@own_weights_ok O K).
Proof.
  split.
  - intros w inner H. exact H.
  - intros env. apply own_weights_iterations.
  - intros var slot_name env. apply own_weights_add_slot.
  - intros env H. unfold sync_iterations, bind.
    pose proof (own_weights_iterations env H) as H'.
    destruct (iterations env) as [[it|e] env1]; simpl in *; exact H'.
Qed.

(** The wrapper that construction returns has no weight, no counter and
    no slot. *)
Lemma own_weights_init {RG : @Registry O} {KB : @KerasBase O K}
    (optimizer flag name : PyVal) (kwargs : gmap string PyVal)
    (w : @Wrapper O K) :
  __init__ optimizer flag name kwargs = Ok w -> own_weights_ok w.
Proof.
  unfold __init__. destruct (super_init name kwargs); [|discriminate].
  destruct (resolve_identifier optimizer) as [[| | | |o|]|]; try discriminate.
  destruct flag; try discriminate. intros [= <-] v. simpl. split.
  - intros Hin. inversion Hin.
  - intros [H|(key & d & n & Hk & _)]; [discriminate|].
    simpl in Hk. rewrite lookup_empty in Hk. discriminate.
Qed.

End Invariants.

Section Weights.

Context {O K : Type} {BO : @BaseOptimizer O} {AR : AveragingRule}
        {RG : @Registry O} {KB : @KerasBase O K}.

(** From construction on, through any sequence of calls of the wrapper's
    methods, the wrapper's own weight list holds exactly its iteration
    counter and its slot variables. *)
Lemma own_weights_after_calls (optimizer flag name : PyVal)
    (kwargs : gmap string PyVal) (w0 : @Wrapper O K) (st : Store)
    (sc : list Op) (tr : list Event) (cs : list Call) :
  __init__ optimizer flag name kwargs = Ok w0 ->
  own_weights_ok
    (self (run_calls cs {| self := w0; store := st; scope := sc; trace := tr |})).
Proof.
  intros Hinit. apply run_calls_keep; [apply own_weights_stable|].
  simpl. exact (own_weights_init _ _ _ _ _ Hinit).
Qed.

(** C8: [weights] is the wrapper's own weight list followed by the
    wrapped optimizer's: position [i] of the result is position [i] of the
    own list when that exists, position [length own + j] is position [j]
    of the wrapped optimizer's list, so every own weight comes before
    every weight of the wrapped optimizer; and where the own list holds
    the iteration counter and the slots, as it does from construction on,
    these are what the first [length own] positions contain. *)
Theorem weights_own_then_base (w : @Wrapper O K) :
  weights w = _weights w ++ base_weights (_optimizer w) /\
  (forall i v, _weights w !! i = Some v -> weights w !! i = Some v) /\
  (forall j, weights w !! (length (_weights w) + j)%nat =
             base_weights (_optimizer w) !! j) /\
  (forall i j v u,
     _weights w !! i = Some v -> base_weights (_optimizer w) !! j = Some u ->
     exists i' j', weights w !! i' = Some v /\ weights w !! j' = Some u /\
                   (i' < j')%nat) /\
  (own_weights_ok w ->
   forall i v, (i < length (_weights w))%nat -> weights w !! i = Some v ->
               _iterations w = Some v \/ is_slot w v).
Proof.
  unfold weights.
  assert (Hl : forall i v, _weights w !! i = Some v ->
                 (_weights w ++ base_weights (_optimizer w)) !! i = Some v).
  { intros i v Hi. now apply lookup_app_l_Some. }
  assert (Hr : forall j, (_weights w ++ base_weights (_optimizer w))
                           !! (length (_weights w) + j)%nat
                         = base_weights (_optimizer w) !! j).
  { intros j. now rewrite lookup_app_r, Nat.add_sub' by lia. }
  split; [reflexivity|]. split; [exact Hl|]. split; [exact Hr|]. split.
  - intros i j v u Hi Hj. exists i, (length (_weights w) + j)%nat.
    split; [now apply Hl|]. split; [now rewrite Hr|].
    apply lookup_lt_Some in Hi. lia.
  - intros Hok i v Hlt Hi. rewrite lookup_app_l in Hi by exact Hlt.
    apply Hok. apply list_elem_of_lookup. eauto.
Qed.

End Weights.

Section Counters.

Context {O K : Type} {BO : @BaseOptimizer O} {AR : AveragingRule}.

Implicit Types (env : @Env O K) (var s : Var).

Lemma bind_ok {A B} (m : @M O K A) (f : A -> @M O K B) env (b : B) env' :
  bind m f env = (Ok b, env') ->
  exists a env1, m env = (Ok a, env1) /\ f a env1 = (Ok b, env').
Proof.
  unfold bind. destruct (m env) as [[a|e] env1]; [eauto|discriminate].
Qed.

(** The first statement of [apply_gradients] always completes and leaves
    both counter attributes bound to the wrapper's counter, which is the
    one it already had when it had one. *)
Lemma sync_iterations_spec env :
  exists it env_s,
    sync_iterations env = (Ok tt, env_s) /\
    (forall it0, _iterations (self env) = Some it0 -> it = it0) /\
    shared_at it (self env_s) /\
    b_inner (_optimizer (self env_s)) = b_inner (_optimizer (self env)).
Proof.
  unfold sync_iterations, bind, iterations, set_base_iterations, shared_at.
  destruct (_iterations (self env)) as [it|] eqn:Hit.
  - exists it. eexists. split; [reflexivity|]. simpl.
    split; [congruence|]. auto.
  - eexists. eexists. split; [reflexivity|]. simpl.
    split; [discriminate|]. auto.
Qed.

Lemma apply_gradients_unfold (gvs : list (option Grad * Var))
    (name : option string) env env_s :
  sync_iterations env = (Ok tt, env_s) ->
  apply_gradients gvs name env = super_apply_gradients gvs name env_s.
Proof.
  intros H. rewrite apply_gradients_as_sync. unfold bind. now rewrite H.
Qed.

(** The operation the inherited control flow returns increments the
    counter the wrapper holds, or does nothing when no gradient is left. *)
Lemma super_apply_gradients_result (gvs : list (option Grad * Var))
    (name : option string) env (l : list (Grad * Var)) (op : Op) env' it :
  _iterations (self env) = Some it ->
  _filter_grads gvs = Ok l ->
  super_apply_gradients gvs name env = (Ok op, env') ->
  op_kind op = match l with [] => KNoOp | _ :: _ => KAssignAdd it 1 end.
Proof.
  intros Hit Hl. unfold super_apply_gradients. rewrite Hl.
  intros H.
  pose proof (has_counter_stable (O := O) (K := K) it) as HS.
  apply bind_ok in H as (a1 & e1 & H1 & H).
  apply bind_ok in H as (a2 & e2 & H2 & H).
  apply bind_ok in H as (a3 & e3 & H3 & H).
  destruct l as [|gv l'].
  { unfold no_op in H. now injection H as <- _. }
  set (l := gv :: l') in *.
  apply bind_ok in H as (a4 & e4 & H4 & H).
  apply bind_ok in H as (ops & e5 & H5 & H).
  apply bind_ok in H as (it' & e6 & H6 & H).
  assert (Hit5 : has_counter it (self e5)).
  { pose proof (stable_iterations env Hit) as K1. rewrite H1 in K1.
    pose proof (preserves_create_hypers _ e1 K1) as K2. rewrite H2 in K2.
    pose proof (preserves_create_slots _ (map snd l) e2 K2) as K3.
    rewrite H3 in K3.
    pose proof (preserves_prepare _ (map snd l) e3 K3) as K4.
    rewrite H4 in K4.
    pose proof (preserves_update_ops _ l e4 K4) as K5. rewrite H5 in K5.
    exact K5. }
  unfold iterations in H6. rewrite Hit5 in H6. injection H6 as <- <-.
  unfold control_dependencies, assign_add in H. simpl in H.
  now injection H as <- _.
Qed.

(** C3, as amended: [apply_gradients] first binds the wrapper's own
    counter (created on the spot when absent, kept when present) to the
    wrapped optimizer's [_iterations] attribute and only then runs the
    inherited control flow; when the call is over, whether it returned or
    raised, both attributes are that one variable, so they read the same
    value in every store; an operation it returns increments that
    variable by one, or is a no-op when no gradient was given; and the
    two attributes stay that same variable
    through any later sequence of calls of the wrapper's methods, hence
    immediately before every later [apply_gradients]. *)
Theorem apply_gradients_shares_counter (gvs : list (option Grad * Var))
    (name : option string) env :
  exists it env_s,
    sync_iterations env = (Ok tt, env_s) /\
    (forall it0, _iterations (self env) = Some it0 -> it = it0) /\
    shared_at it (self env_s) /\
    apply_gradients gvs name env = super_apply_gradients gvs name env_s /\
    let env' := (apply_gradients gvs name env).2 in
    shared_at it (self env') /\
    counters_shared (self env') /\
    (forall st, read_counter (_iterations (self env')) st
                = read_counter (b_iterations (_optimizer (self env'))) st) /\
    (forall op, (apply_gradients gvs name env).1 = Ok op ->
                exists l, _filter_grads gvs = Ok l /\
                          op_kind op = match l with
                                       | [] => KNoOp
                                       | _ :: _ => KAssignAdd it 1
                                       end) /\
    (forall cs, shared_at it (self (run_calls cs env'))).
Proof.
  destruct (sync_iterations_spec env) as (it & env_s & Hs & Hold & Hsh & _).
  pose proof (shared_at_stable (O := O) (K := K) it) as HS.
  exists it, env_s. split; [exact Hs|]. split; [exact Hold|].
  split; [exact Hsh|].
  pose proof (apply_gradients_unfold gvs name env env_s Hs) as Hun.
  split; [exact Hun|]. cbv zeta.
  assert (Hafter : shared_at it (self (apply_gradients gvs name env).2)).
  { rewrite Hun. now apply preserves_super_apply_gradients. }
  split; [exact Hafter|].
  destruct Hafter as [K1 K2].
  split; [exists it; split; assumption|].
  split; [intros st; now rewrite K1, K2|].
  split.
  - intros op Hop. rewrite Hun in Hop.
    destruct (super_apply_gradients gvs name env_s) as [r env'] eqn:Hrun.
    simpl in Hop. subst r.
    destruct (_filter_grads gvs) as [l|e] eqn:Hl.
    + exists l. split; [reflexivity|].
      exact (super_apply_gradients_result _ _ _ _ _ _ _ (proj1 Hsh) Hl Hrun).
    + unfold super_apply_gradients in Hrun. rewrite Hl in Hrun.
      discriminate Hrun.
  - intros cs. apply run_calls_keep; [exact HS|]. now split.
Qed.

End Counters.

(** ** Further properties of the methods *)

Section Effects.

Context {O K : Type} {BO : @BaseOptimizer O} {AR : AveragingRule}.

Implicit Types (env : @Env O K) (var s : Var).

(** *** How [fixes] goes through the control structure *)

Lemma fixes_ret {X} (f : @Env O K -> X) {A} (a : A) : fixes f (@ret O K A a).
Proof. intros env. reflexivity. Qed.

Lemma fixes_raise {X} (f : @Env O K -> X) {A} (e : Exn) :
  fixes f (@raise O K A e).
Proof. intros env. reflexivity. Qed.

Lemma fixes_bind {X} (f : @Env O K -> X) {A B} (m : @M O K A)
    (k : A -> @M O K B) :
  fixes f m -> (forall a, fixes f (k a)) -> fixes f (bind m k).
Proof.
  intros Hm Hk env. unfold bind. specialize (Hm env).
  destruct (m env) as [[a|e] env1]; simpl in *; [|exact Hm].
  now rewrite Hk.
Qed.

Lemma fixes_branch {X} (f : @Env O K -> X) {A} (test : @Env O K -> bool)
    (m1 m2 : @M O K A) :
  fixes f m1 -> fixes f m2 ->
  fixes f (fun env => if test env then m1 env else m2 env).
Proof. intros H1 H2 env. destruct (test env); [apply H1|apply H2]. Qed.

Lemma fixes_for_each {X} (f : @Env O K -> X) {A} (l : list A)
    (body : A -> @M O K unit) :
  (forall x, fixes f (body x)) -> fixes f (for_each l body).
Proof.
  intros Hb. induction l as [|x l IH]; simpl.
  - apply fixes_ret.
  - apply fixes_bind; [apply Hb|intros _; exact IH].
Qed.

Lemma fixes_map_m {X} (f : @Env O K -> X) {A B} (g : A -> @M O K B)
    (l : list A) :
  (forall x, fixes f (g x)) -> fixes f (map_m g l).
Proof.
  intros Hg. induction l as [|x l IH]; simpl.
  - apply fixes_ret.
  - apply fixes_bind; [apply Hg|intros y].
    apply fixes_bind; [exact IH|intros ys; apply fixes_ret].
Qed.

Lemma fixes_list_comp {X} (f : @Env O K -> X) {A B} (l : list A)
    (cond : A -> bool) (g : A -> @M O K B) :
  (forall x, fixes f (g x)) -> fixes f (list_comp l cond g).
Proof.
  intros Hg. induction l as [|x l IH]; simpl.
  - apply fixes_ret.
  - destruct (cond x); [|exact IH].
    apply fixes_bind; [apply Hg|intros y].
    apply fixes_bind; [exact IH|intros ys; apply fixes_ret].
Qed.

(** Leaving a [with] block restores the scope, whatever the block did. *)
Lemma control_dependencies_scope {A} (deps : list Op) (body : @M O K A) :
  fixes scope (control_dependencies deps body).
Proof.
  intros env. unfold control_dependencies.
  destruct (body (set_scope (scope env ++ deps) env)) as [r env1].
  reflexivity.
Qed.

Lemma control_dependencies_self {A} (deps : list Op) (body : @M O K A) :
  fixes self body -> fixes self (control_dependencies deps body).
Proof.
  intros Hb env. unfold control_dependencies.
  specialize (Hb (set_scope (scope env ++ deps) env)).
  destruct (body (set_scope (scope env ++ deps) env)) as [r env1].
  exact Hb.
Qed.

Lemma control_dependencies_store {A} (deps : list Op) (body : @M O K A) :
  fixes store body -> fixes store (control_dependencies deps body).
Proof.
  intros Hb env. unfold control_dependencies.
  specialize (Hb (set_scope (scope env ++ deps) env)).
  destruct (body (set_scope (scope env ++ deps) env)) as [r env1].
  exact Hb.
Qed.

Lemma get_slot_fixes {X} (f : @Env O K -> X) var (slot_name : string) :
  (forall ev env, f (log ev env) = f env) ->
  fixes f (@get_slot O K var slot_name).
Proof.
  intros Hlog env. unfold get_slot. simpl.
  destruct (_slots (self env) !! v_id var) as [d|]; [|apply Hlog].
  destruct (d !! slot_name); apply Hlog.
Qed.

Lemma add_slot_scope var (slot_name : string) :
  fixes scope (@add_slot O K var slot_name).
Proof.
  intros env. unfold add_slot. simpl.
  destruct (default ∅ (_slots (self env) !! v_id var) !! slot_name);
    reflexivity.
Qed.

Lemma iterations_scope : fixes scope (@iterations O K).
Proof.
  intros env. unfold iterations.
  destruct (_iterations (self env)); reflexivity.
Qed.

Lemma call_hook_scope {A} (ev : Event) (h : Hook A) :
  fixes scope (@call_hook O K A ev h).
Proof.
  intros env. unfold call_hook.
  destruct (h (_optimizer (self env)) (store env)) as [[r inner] st].
  reflexivity.
Qed.

Lemma apply_average_op_fixes {X} (f : @Env O K -> X) (train_op : Op) var :
  (forall ev env, f (log ev env) = f env) ->
  (forall A deps (body : @M O K A),
     fixes f body -> fixes f (control_dependencies deps body)) ->
  fixes f (@_apply_average_op O K AR train_op var).
Proof.
  intros Hlog Hcd. unfold _apply_average_op.
  apply fixes_bind; [now apply get_slot_fixes|intros a].
  apply (fixes_branch f (fun env => _sequential_update (self env))).
  - apply Hcd. intros env. apply Hlog.
  - intros env. apply Hlog.
Qed.

Lemma wrapper_apply_fixes {X} (f : @Env O K -> X) (c : ApplyCall) :
  (forall ev env, f (log ev env) = f env) ->
  (forall A deps (body : @M O K A),
     fixes f body -> fixes f (control_dependencies deps body)) ->
  fixes f (@wrapper_apply O K BO AR c).
Proof.
  intros Hlog Hcd env. rewrite wrapper_apply_unfold. revert env.
  apply fixes_bind; [intros env; apply Hlog|intros t].
  apply fixes_bind; [now apply apply_average_op_fixes|intros a].
  intros env. reflexivity.
Qed.

Lemma assign_average_vars_fixes {X} (f : @Env O K -> X) (var_list : list Var) :
  (forall ev env, f (log ev env) = f env) ->
  fixes f (@assign_average_vars O K var_list).
Proof.
  intros Hlog. unfold assign_average_vars.
  apply fixes_bind; [|intros a env; reflexivity].
  apply fixes_list_comp. intros x. unfold assign_average.
  apply fixes_bind; [now apply get_slot_fixes|intros y env; reflexivity].
Qed.

Lemma create_slots_scope (var_list : list Var) :
  fixes scope (@_create_slots O K BO var_list).
Proof.
  unfold _create_slots. apply fixes_bind; [apply call_hook_scope|intros _].
  apply fixes_for_each. intros x. unfold add_average_slot.
  apply fixes_bind; [apply add_slot_scope|intros y; apply fixes_ret].
Qed.

Lemma wrapper_apply_scope (c : ApplyCall) :
  fixes scope (@wrapper_apply O K BO AR c).
Proof.
  apply (wrapper_apply_fixes scope); [reflexivity|].
  intros A deps body _. apply control_dependencies_scope.
Qed.

Lemma super_apply_gradients_scope (gvs : list (option Grad * Var))
    (name : option string) :
  fixes scope (@super_apply_gradients O K BO AR gvs name).
Proof.
  unfold super_apply_gradients.
  destruct (_filter_grads gvs) as [l|e]; [|apply fixes_raise].
  apply fixes_bind; [apply iterations_scope|intros _].
  apply fixes_bind; [apply call_hook_scope|intros _].
  apply fixes_bind; [apply create_slots_scope|intros _].
  destruct l as [|gv0 l']; [intros env; reflexivity|].
  apply fixes_bind; [apply call_hook_scope|intros _].
  apply fixes_bind.
  - apply fixes_map_m. intros [g v]. unfold apply_grad_to_update_var. simpl.
    destruct g as [g|values indices].
    + apply (wrapper_apply_scope (ResourceApplyDense g v)).
    + apply (wrapper_apply_scope
               (ResourceApplySparseDuplicateIndices values v indices)).
  - intros ops. apply fixes_bind; [apply iterations_scope|intros it].
    apply control_dependencies_scope.
Qed.

Lemma apply_gradients_scope (gvs : list (option Grad * Var))
    (name : option string) :
  fixes scope (@apply_gradients O K BO AR gvs name).
Proof.
  unfold apply_gradients.
  apply fixes_bind; [apply iterations_scope|intros it].
  apply fixes_bind; [intros env; reflexivity|intros _].
  apply super_apply_gradients_scope.
Qed.

(** X2: no method of the wrapper leaks a control-dependency scope: after
    any sequence of calls, returning or raising, the scope is the one the
    caller had; the dependency on the train operation lasts only for the
    construction of the average operation. *)
Theorem scope_restored (cs : list Call) env :
  scope (run_calls cs env) = scope env.
Proof.
  revert env. induction cs as [|c cs IH]; intros env; simpl; [reflexivity|].
  rewrite IH. destruct c as [V| |V|g n|c|V|value]; simpl.
  - apply create_slots_scope.
  - apply (call_hook_scope EvBaseCreateHypers base_create_hypers).
  - apply (call_hook_scope (EvBasePrepare V) (base_prepare V)).
  - apply apply_gradients_scope.
  - apply wrapper_apply_scope.
  - now apply (assign_average_vars_fixes scope).
  - destruct (set_lr value (self env)); reflexivity.
Qed.

End Effects.

Section HandlerErrors.

Context {O K : Type} {BO : @BaseOptimizer O} {AR : AveragingRule}.

Implicit Types (env : @Env O K) (var s : Var) (V : list Var).

(** X3: a gradient handler called for a variable that has no average slot
    raises the key error of the slot lookup.  By then the wrapped
    optimizer has already been asked for its train operation; the
    averaging rule is not called (the log gains the two calls shown and
    nothing else) and no group is built. *)
Theorem wrapper_apply_missing_slot (c : ApplyCall) env (train_op : Op) :
  average_slot (self env) (call_var c) = None ->
  base_apply c (_optimizer (self env)) (scope env) = Ok train_op ->
  exists msg env',
    wrapper_apply c env = (Raise (KeyError msg), env') /\
    trace env' = trace env ++ [EvBaseApply c (scope env);
                               EvGetSlot (call_var c) "average"].
Proof.
  intros Hs Hbase.
  destruct (get_slot_missing (log (EvBaseApply c (scope env)) env)
              (call_var c) Hs) as [msg Hget].
  exists msg. eexists. split.
  - rewrite wrapper_apply_unfold.
    unfold bind at 1. unfold call_base_apply. rewrite Hbase.
    unfold bind at 1. unfold _apply_average_op, bind at 1.
    rewrite Hget. reflexivity.
  - simpl. now rewrite <- app_assoc.
Qed.

(** X4: the handlers pass the exceptions of their collaborators on
    unchanged.  When the wrapped optimizer's handler raises, the wrapper's
    handler raises the same exception without looking up the slot or
    calling the averaging rule.  When the averaging rule raises, the
    handler raises the same exception, after the wrapped optimizer's
    train operation has been built. *)
Theorem wrapper_apply_propagates (c : ApplyCall) env :
  (forall e, base_apply c (_optimizer (self env)) (scope env) = Raise e ->
     wrapper_apply c env = (Raise e, log (EvBaseApply c (scope env)) env)) /\
  (forall train_op s e,
     base_apply c (_optimizer (self env)) (scope env) = Ok train_op ->
     average_slot (self env) (call_var c) = Some s ->
     average_op (call_var c) s
       (if _sequential_update (self env)
        then scope env ++ [train_op] else scope env) = Raise e ->
     exists env',
       wrapper_apply c env = (Raise e, env') /\
       trace env' = trace env
                    ++ [EvBaseApply c (scope env);
                        EvGetSlot (call_var c) "average";
                        EvAverageOp (call_var c) s
                          (if _sequential_update (self env)
                           then scope env ++ [train_op] else scope env)]).
Proof.
  split.
  - intros e Hbase. rewrite wrapper_apply_unfold.
    unfold bind at 1. unfold call_base_apply. now rewrite Hbase.
  - intros train_op s e Hbase Hs Havg.
    rewrite wrapper_apply_unfold.
    unfold bind at 1. unfold call_base_apply. rewrite Hbase.
    unfold bind at 1. unfold _apply_average_op, bind at 1.
    rewrite (get_slot_found (log (EvBaseApply c (scope env)) env) _ _ Hs).
    simpl. destruct (_sequential_update (self env)).
    + unfold control_dependencies, call_average_op. simpl. rewrite Havg.
      eexists. split; [reflexivity|]. simpl. now rewrite <- !app_assoc.
    + unfold call_average_op. simpl. rewrite Havg.
      eexists. split; [reflexivity|]. simpl. now rewrite <- !app_assoc.
Qed.

Lemma list_comp_app_skip {A B} (l1 l2 : list A) (cond : A -> bool)
    (f : A -> @M O K B) env (ys : list B) env1 (e : Exn) env2 :
  list_comp l1 cond f env = (Ok ys, env1) ->
  list_comp l2 cond f env1 = (Raise e, env2) ->
  list_comp (l1 ++ l2) cond f env = (Raise e, env2).
Proof.
  revert env ys. induction l1 as [|x l1 IH]; intros env ys H1 H2; simpl in *.
  - injection H1 as _ <-. exact H2.
  - destruct (cond x); [|now apply (IH env ys)].
    unfold bind in *. destruct (f x env) as [[y|e0] env0]; [|discriminate].
    destruct (list_comp l1 cond f env0) as [[ys0|e0] env3] eqn:Hrest;
      [|discriminate].
    injection H1 as _ <-. now rewrite (IH env0 ys0 Hrest H2).
Qed.

(** X5: when a trainable variable of the list has no average slot,
    [assign_average_vars] raises the key error of the lookup for the first
    such variable: the slots of the trainable variables before it have
    been looked up, in list order, nothing after it is visited and no
    group is returned. *)
Theorem assign_average_vars_missing_slot V1 (v : Var) V2 env :
  (forall u, u ∈ V1 -> v_trainable u = true ->
     is_Some (average_slot (self env) u)) ->
  v_trainable v = true ->
  average_slot (self env) v = None ->
  exists msg env',
    assign_average_vars (V1 ++ v :: V2) env = (Raise (KeyError msg), env') /\
    trace env' = trace env
                 ++ map (fun u => EvGetSlot u "average")
                        (List.filter v_trainable V1 ++ [v]).
Proof.
  intros Hall Htr Hnone.
  destruct (list_comp_assign_average V1 env Hall)
    as (env1 & Hrun & Hself & Hst & Hsc & Htrace).
  assert (Hnone1 : average_slot (self env1) v = None) by now rewrite Hself.
  destruct (get_slot_missing env1 v Hnone1) as [msg Hget].
  exists msg, (log (EvGetSlot v "average") env1). split.
  - unfold assign_average_vars, bind.
    rewrite (list_comp_app_skip V1 (v :: V2) v_trainable assign_average env
               _ env1 (KeyError msg) (log (EvGetSlot v "average") env1) Hrun);
      [reflexivity|].
    simpl. rewrite Htr. unfold assign_average at 1. unfold bind.
    now rewrite Hget.
  - simpl. rewrite Htrace, map_app. simpl. now rewrite <- app_assoc.
Qed.

End HandlerErrors.

Section Persistence.

Context {O K : Type} {BO : @BaseOptimizer O} {AR : AveragingRule}.

Implicit Types (env : @Env O K) (var s : Var) (V : list Var).

Lemma average_slot_kept_stable (v s : Var) :
  Stable (fun w : @Wrapper O K => average_slot w v = Some s).
Proof.
  split.
  - intros w inner H. exact H.
  - intros env H. unfold iterations.
    destruct (_iterations (self env)); exact H.
  - intros var slot_name env H. unfold add_slot. simpl.
    unfold average_slot in H.
    destruct (_slots (self env) !! v_id v) as [d|] eqn:Hd; [|discriminate].
    destruct (decide (v_id var = v_id v)) as [Heq|Hne].
    + rewrite Heq, Hd. simpl.
      destruct (d !! slot_name) as [weight|] eqn:Hw; simpl;
        unfold average_slot; simpl; rewrite lookup_insert_eq; [exact H|].
      rewrite lookup_insert_ne; [exact H|].
      intros Hname. subst slot_name. congruence.
    + destruct (default ∅ (_slots (self env) !! v_id var) !! slot_name);
        simpl; unfold average_slot; simpl;
        rewrite lookup_insert_ne by exact Hne; now rewrite Hd.
  - intros env H. unfold sync_iterations, bind, iterations.
    destruct (_iterations (self env)); exact H.
Qed.

(** X6: an average slot, once it exists, is the slot of its variable for
    good: no sequence of calls of the wrapper's methods, returning or
    raising, removes it or puts another variable in its place. *)
Theorem average_slot_persists (cs : list Call) env (v s : Var) :
  average_slot (self env) v = Some s ->
  average_slot (self (run_calls cs env)) v = Some s.
Proof.
  intros H.
  exact (run_calls_keep (fun w => average_slot w v = Some s)
           (HP := average_slot_kept_stable v s) cs env H).
Qed.

Lemma weights_prefix_stable (l : list Var) :
  Stable (fun w : @Wrapper O K => l `prefix_of` _weights w).
Proof.
  split.
  - intros w inner H. exact H.
  - intros env H. unfold iterations.
    destruct (_iterations (self env)); [exact H|].
    simpl. now apply prefix_app_r.
  - intros var slot_name env H. unfold add_slot. simpl.
    destruct (default ∅ (_slots (self env) !! v_id var) !! slot_name);
      simpl; [exact H|now apply prefix_app_r].
  - intros env H. unfold sync_iterations, bind, iterations.
    destruct (_iterations (self env)); simpl; [exact H|].
    now apply prefix_app_r.
Qed.

(** X7: the wrapper's own weight list only grows at its end: through any
    sequence of calls, every weight keeps the position it has, so the
    order of [weights] up to the wrapped optimizer's part is stable. *)
Theorem own_weights_append_only (cs : list Call) env (i : nat) (u : Var) :
  _weights (self env) !! i = Some u ->
  _weights (self (run_calls cs env)) !! i = Some u.
Proof.
  intros H.
  assert (Hp : _weights (self env) `prefix_of` _weights (self (run_calls cs env))).
  { exact (run_calls_keep (fun w => _weights (self env) `prefix_of` _weights w)
             (HP := weights_prefix_stable (_weights (self env))) cs env
             (reflexivity _)). }
  destruct Hp as [k Hk]. rewrite Hk. now apply lookup_app_l_Some.
Qed.

(** X8: [_create_slots] never overwrites a stored value: whatever the
    wrapped optimizer's hook left in the store is still there when
    [_create_slots] is over, the new average slots having taken addresses
    that were not in use. *)
Theorem create_slots_keeps_store V env (id : positive) (t : Tensor) :
  (base_create_slots V (_optimizer (self env)) (store env)).2 !! id = Some t ->
  store (_create_slots V env).2 !! id = Some t.
Proof.
  destruct (base_create_slots V (_optimizer (self env)) (store env))
    as [[r inner] st] eqn:Hb.
  simpl. intros Ht.
  rewrite (create_slots_unfold _ _ _ _ _ Hb). cbv zeta.
  destruct r as [u|e]; [|exact Ht].
  set (env_b := log _ _).
  destruct (for_each_add_slot V env_b) as (env1 & Hrun & _ & _ & _ & Hstore & _).
  rewrite Hrun. simpl. apply Hstore. exact Ht.
Qed.

End Persistence.

Section ApplyFlow.

Context {O K : Type} {BO : @BaseOptimizer O} {AR : AveragingRule}.

Implicit Types (env : @Env O K) (var s : Var) (V : list Var).






End ApplyFlow.

Section Edges.

Context {O K : Type} {BO : @BaseOptimizer O} {AR : AveragingRule}
        {RG : @Registry O} {KB : @KerasBase O K}.

Implicit Types (env : @Env O K) (var s : Var) (V : list Var).

(** X10: once the trainable variables of a list have their average slots,
    [assign_average_vars] on that list returns after any further sequence
    of calls of the wrapper's methods, and still assigns from the same
    slots. *)
Theorem assign_average_vars_stays_defined (cs : list Call) V env :
  (forall v, v ∈ V -> v_trainable v = true ->
     is_Some (average_slot (self env) v)) ->
  exists env',
    assign_average_vars V (run_calls cs env)
    = (Ok (MkOp KNoOp
             (scope env ++ average_assignments (self env) (scope env) V)),
       env').
Proof.
  intros Hall.
  assert (Hkeep : forall v s, average_slot (self env) v = Some s ->
                    average_slot (self (run_calls cs env)) v = Some s).
  { intros v s H.
    exact (run_calls_keep (fun w => average_slot w v = Some s)
             (HP := average_slot_kept_stable v s) cs env H). }
  assert (Hsc : scope (run_calls cs env) = scope env).
  { clear. revert env. induction cs as [|c cs IH]; intros env; simpl;
      [reflexivity|].
    rewrite IH. destruct c as [V| |V|g n|c|V|value]; simpl.
    - apply create_slots_scope.
    - apply (call_hook_scope EvBaseCreateHypers base_create_hypers).
    - apply (call_hook_scope (EvBasePrepare V) (base_prepare V)).
    - apply apply_gradients_scope.
    - apply wrapper_apply_scope.
    - now apply (assign_average_vars_fixes scope).
    - destruct (set_lr value (self env)); reflexivity. }
  destruct (list_comp_assign_average V (run_calls cs env))
    as (env' & Hrun & _ & _ & Hsc' & _).
  { intros v Hv Htr. destruct (Hall v Hv Htr) as [s Hs].
    exists s. now apply Hkeep. }
  assert (Heq : average_assignments (self (run_calls cs env)) (scope env) V
                = average_assignments (self env) (scope env) V).
  { clear Hrun. induction V as [|v V IH]; [reflexivity|].
    assert (IH' : average_assignments (self (run_calls cs env)) (scope env) V
                  = average_assignments (self env) (scope env) V).
    { apply IH. intros u Hu. apply Hall. now apply list_elem_of_further. }
    unfold average_assignments in *. simpl.
    destruct (v_trainable v) eqn:Htr; [|exact IH'].
    destruct (Hall v (list_elem_of_here _ _) Htr) as [s Hs].
    rewrite Hs, (Hkeep v s Hs). simpl. f_equal. exact IH'. }
  exists env'. unfold assign_average_vars, bind. rewrite Hrun.
  unfold group. now rewrite Hsc', Hsc, Heq.
Qed.

(** X11: how [from_config] fails.  Without an ['optimizer'] entry it
    raises a key error and leaves the caller's mapping untouched.  When
    the registry cannot rebuild the nested optimizer, its exception is
    passed on, and when the ['sequential_update'] entry is not a boolean
    the constructor's type error is; in both cases the caller's mapping
    has already lost its ['optimizer'] entry. *)
Theorem from_config_failures (config : gmap string (@PyVal O))
    (custom_objects : PyVal) :
  (config !! "optimizer" = None ->
   from_config config custom_objects = (Raise (KeyError "optimizer"), config)) /\
  (forall nested e,
     config !! "optimizer" = Some nested ->
     optimizers_deserialize nested custom_objects = Raise e ->
     from_config config custom_objects
     = (Raise e, delete "optimizer" config)) /\
  (forall nested o flag k,
     config !! "optimizer" = Some nested ->
     optimizers_deserialize nested custom_objects = Ok o ->
     config !! "sequential_update" = Some flag ->
     is_bool flag = false ->
     super_init (default (PyStr "AverageOptimizer") (config !! "name"))
       (delete "name" (delete "sequential_update"
                         (delete "optimizer" config))) = Ok k ->
     is_type_error (from_config config custom_objects).1 /\
     (from_config config custom_objects).2 = delete "optimizer" config).
Proof.
  split; [|split].
  - intros H. unfold from_config. now rewrite H.
  - intros nested e H He. unfold from_config. now rewrite H, He.
  - intros nested o flag k H Ho Hflag Hnb Hk.
    unfold from_config. rewrite H, Ho. simpl.
    rewrite !(lookup_delete_ne _ "optimizer") by discriminate.
    rewrite Hflag. simpl. split; [|reflexivity].
    unfold __init__. rewrite Hk. simpl.
    destruct flag; try discriminate; eexists; reflexivity.
Qed.

(** X12: the defaults of [from_config].  A configuration without a
    ['sequential_update'] entry gives a wrapper with the flag set, and one
    without a ['name'] entry is built under the name ["AverageOptimizer"];
    the wrapper returned holds the optimizer the registry rebuilt and
    starts with no slot, no weight and no iteration counter, whatever
    state the serialized wrapper had. *)
Theorem from_config_defaults (config : gmap string (@PyVal O))
    (custom_objects nested : PyVal) (o : BaseObj) (k : K) :
  config !! "optimizer" = Some nested ->
  optimizers_deserialize nested custom_objects = Ok o ->
  config !! "sequential_update" = None ->
  super_init (default (PyStr "AverageOptimizer") (config !! "name"))
    (delete "name" (delete "optimizer" config)) = Ok k ->
  exists w,
    (from_config config custom_objects).1 = Ok w /\
    _sequential_update w = true /\ _optimizer w = o /\ _keras w = k /\
    _slots w = ∅ /\ _weights w = [] /\ _iterations w = None.
Proof.
  intros H Ho Hflag Hk. unfold from_config. rewrite H, Ho. simpl.
  rewrite !(lookup_delete_ne _ "optimizer") by discriminate.
  rewrite Hflag. simpl.
  assert (Hkw : delete "sequential_update" (delete "optimizer" config)
                = delete "optimizer" config).
  { apply delete_id. now rewrite lookup_delete_ne by discriminate. }
  rewrite Hkw. unfold __init__. rewrite Hk. simpl.
  eexists. split; [reflexivity|]. repeat split.
Qed.

(** X13: the order of the checks in the constructor.  A failure of the
    base-class initialiser wins over everything else; after it, a value
    that is no optimizer is reported as such even when the flag is no
    boolean either, and the registry is asked only for strings. *)
Theorem init_error_precedence (optimizer sequential_update name : PyVal)
    (kwargs : gmap string PyVal) :
  (forall e, super_init name kwargs = Raise e ->
     __init__ optimizer sequential_update name kwargs = Raise e) /\
  (forall k v, super_init name kwargs = Ok k ->
     resolve_identifier optimizer = Ok v -> is_optimizer v = false ->
     __init__ optimizer sequential_update name kwargs
     = Raise (TypeError
                "optimizer is not an object of tf.keras.optimizers.Optimizer")) /\
  (forall k o, super_init name kwargs = Ok k ->
     resolve_identifier optimizer = Ok (PyOptimizer o) ->
     is_bool sequential_update = false ->
     __init__ optimizer sequential_update name kwargs
     = Raise (TypeError "sequential_update must be of bool type")) /\
  ((forall identifier : string, optimizer <> PyStr identifier) ->
   resolve_identifier optimizer = Ok optimizer).
Proof.
  split; [|split; [|split]].
  - intros e H. unfold __init__. now rewrite H.
  - intros k v Hk Hv Hno. unfold __init__. rewrite Hk, Hv.
    destruct v; try discriminate; reflexivity.
  - intros k o Hk Ho Hnb. unfold __init__. rewrite Hk, Ho.
    destruct sequential_update; try discriminate; reflexivity.
  - intros Hns. destruct optimizer as [| | |identifier| |]; try reflexivity.
    now destruct (Hns identifier).
Qed.

End Edges.


(** ** The theorems on the reference installation *)

Section Evaluation.

Import Reference.

Lemma init_reference (o : @BaseObj Sgd) (flag : bool) :
  __init__ (PyOptimizer o) (PyBool flag) default_name no_options
  = Ok (fresh_wrapper o flag).
Proof. reflexivity. Qed.

Lemma init_stores_arguments_witness :
  exists w, __init__ (PyOptimizer (sgd 1)) (PyBool false) default_name no_options
            = Ok w /\
            _optimizer w = sgd 1 /\ _sequential_update w = false.
Proof.
  apply (init_stores_arguments (sgd 1) false default_name no_options base_fields).
  reflexivity.
Defined.

Lemma init_outcomes_witness :
  __init__ (PyStr "no_such_optimizer") (PyInt 1) default_name no_options
  = Raise (ValueError "Unknown optimizer: no_such_optimizer") /\
  is_type_error (__init__ PyNone (PyBool true) default_name no_options) /\
  is_type_error (__init__ (PyStr "sgd") (PyInt 1) default_name no_options) /\
  succeeds (__init__ (PyStr "sgd") (PyBool true) default_name no_options).
Proof.
  split; [|split; [|split]].
  - destruct (init_outcomes (PyStr "no_such_optimizer") (PyInt 1) default_name
                no_options base_fields) as (H & _); [reflexivity|].
    apply H. reflexivity.
  - destruct (init_outcomes PyNone (PyBool true) default_name no_options
                base_fields) as (_ & H & _); [reflexivity|].
    apply (H PyNone); reflexivity.
  - destruct (init_outcomes (PyStr "sgd") (PyInt 1) default_name no_options
                base_fields) as (_ & _ & H & _); [reflexivity|].
    apply (H (sgd 1)); reflexivity.
  - destruct (init_outcomes (PyStr "sgd") (PyBool true) default_name no_options
                base_fields) as (_ & _ & _ & H); [reflexivity|].
    apply (H (sgd 1) true); reflexivity.
Defined.

(** The identifier of an optimizer the registry does not know makes
    construction fail with the registry's value error, not a type error. *)
Lemma init_unknown_identifier_not_type_error :
  __init__ (PyStr "no_such_optimizer") (PyBool true) default_name no_options
  = Raise (ValueError "Unknown optimizer: no_such_optimizer") /\
  ~ is_type_error
      (__init__ (PyStr "no_such_optimizer") (PyBool true) default_name
                no_options).
Proof.
  split; [reflexivity|]. intros [msg H]. vm_compute in H. discriminate.
Qed.

Lemma from_config_pops_optimizer_witness :
  (from_config sample_config PyNone).2 !! "optimizer" = None /\
  (from_config sample_config PyNone).2 <> sample_config /\
  (from_config sample_config PyNone).2 !! "name" = Some (PyStr "swa").
Proof.
  destruct (from_config_pops_optimizer sample_config PyNone
              (serialize_sgd (sgd 3)))
    as (_ & Hgone & Hne & Hkeep & _); [reflexivity|].
  split; [exact Hgone|]. split; [exact Hne|].
  rewrite Hkeep by discriminate. reflexivity.
Defined.

Lemma config_round_trip_witness :
  exists w',
    (from_config (get_config (fresh_wrapper (sgd 3) false)) PyNone).1 = Ok w' /\
    optimizers_serialize (_optimizer w') = serialize_sgd (sgd 3) /\
    _sequential_update w' = false.
Proof.
  destruct (config_round_trip
              (fresh_wrapper (sgd 3) false) PyNone (sgd 3) base_fields)
    as (_ & _ & _ & w' & Hw & Hser & Hflag & _).
  - reflexivity.
  - reflexivity.
  - vm_compute. reflexivity.
  - exists w'. split; [exact Hw|]. split; [exact Hser|exact Hflag].
Defined.

Ltac cases_in H :=
  repeat (apply elem_of_cons in H; destruct H as [->|H]);
  try (solve [inversion H]).

Lemma create_slots_spec_witness :
  exists env1 s t env3,
    _create_slots [bias; gamma] grown_env = (Ok tt, env1) /\
    average_slot (self env1) bias = Some bias_average /\
    store env1 !! 6%positive = Some (tensor [3%nat] [17; 18; 19]) /\
    average_slot (self env1) gamma = Some s /\
    store env1 !! v_id s = Some t /\
    t_shape t = [3%nat] /\ t_dtype t = float32 /\
    length (t_data t) = 3%nat /\ Forall (fun x => x = 0) (t_data t) /\
    _create_slots [bias; gamma]
      (set_store (<[v_id s := tensor [3%nat] [5; 5; 5]]> (store env1)) env1)
    = (Ok tt, env3) /\
    _slots (self env3) = _slots (self env1) /\
    _weights (self env3) = _weights (self env1) /\
    store env3 = <[v_id s := tensor [3%nat] [5; 5; 5]]> (store env1).
Proof.
  destruct (create_slots_spec [bias; gamma] grown_env
              (b_inner (sgd 1)) (store grown_env))
    as (env1 & Hrun & _ & _ & Hslots & Hagain).
  - reflexivity.
  - intros v v' Hv Hv' Hid. cases_in Hv; cases_in Hv';
      solve [split; reflexivity | discriminate Hid].
  - intros v s Hv Hs. cases_in Hv; vm_compute in Hs.
    + injection Hs as <-. split; reflexivity.
    + discriminate Hs.
  - destruct (Hslots bias) as (sb & Hsb & _ & _ & _ & Hold);
      [apply list_elem_of_here|].
    destruct (Hold bias_average (tensor [3%nat] [17; 18; 19]))
      as [Heq Hkept]; [vm_compute; reflexivity|vm_compute; reflexivity|].
    rewrite Heq in Hsb.
    destruct (Hslots gamma) as (s & Hs & _ & _ & Hnew & _);
      [apply list_elem_of_further, list_elem_of_here|].
    destruct Hnew as (t & Ht & Hsh & Hdt & Hlen & Hzero);
      [vm_compute; reflexivity|].
    destruct (Hagain
                (set_store (<[v_id s := tensor [3%nat] [5; 5; 5]]> (store env1))
                           env1)
                (b_inner (_optimizer (self env1)))
                (<[v_id s := tensor [3%nat] [5; 5; 5]]> (store env1)))
      as (env3 & Hrun3 & _ & Hsl & Hw & Hst3).
    + intros v _. reflexivity.
    + reflexivity.
    + exists env1, s, t, env3.
      split; [exact Hrun|]. split; [exact Hsb|]. split; [exact Hkept|].
      split; [exact Hs|]. split; [exact Ht|]. split; [exact Hsh|].
      split; [exact Hdt|]. split; [exact Hlen|]. split; [exact Hzero|].
      split; [exact Hrun3|]. split; [exact Hsl|]. split; [exact Hw|exact Hst3].
Defined.

Lemma assign_average_vars_spec_witness :
  exists env' st',
    assign_average_vars sample_vars averaged_env
    = (Ok (MkOp KNoOp [MkOp (KAssign kernel kernel_average) [];
                       MkOp (KAssign bias bias_average) []]), env') /\
    exec_ops [MkOp (KAssign bias bias_average) [];
              MkOp (KAssign kernel kernel_average) []] (store averaged_env)
    = Some st' /\
    st' !! 1%positive = Some (tensor [2%nat; 3%nat] [11; 12; 13; 14; 15; 16]) /\
    st' !! 2%positive = Some (tensor [3%nat] [17; 18; 19]) /\
    st' !! 3%positive = Some (tensor [3%nat] [10; 11; 12]).
Proof.
  destruct (assign_average_vars_spec sample_vars averaged_env)
    as (env' & Hrun & _ & _ & _ & _ & _ & _ & Hexec).
  - intros v Hv Htr. cases_in Hv; try discriminate Htr;
      vm_compute; eexists; reflexivity.
  - destruct (Hexec [MkOp (KAssign bias bias_average) [];
                     MkOp (KAssign kernel kernel_average) []])
      as (st' & Hst' & Hval & Hkeep).
    + apply perm_swap.
    + intros v v' s Hv Hv' Htr Htr' Hs.
      cases_in Hv; try discriminate Htr; vm_compute in Hs;
        injection Hs as <-; cases_in Hv'; discriminate.
    + intros v s Hv Htr Hs.
      cases_in Hv; try discriminate Htr; vm_compute in Hs;
        injection Hs as <-; vm_compute; eexists; reflexivity.
    + exists env', st'. split; [exact Hrun|]. split; [exact Hst'|].
      split; [|split].
      * apply (Hval kernel kernel_average); try reflexivity.
        apply list_elem_of_here.
      * apply (Hval bias bias_average); try reflexivity.
        apply list_elem_of_further, list_elem_of_further, list_elem_of_here.
      * rewrite (Hkeep 3%positive); [reflexivity|].
        intros v Hv Htr. cases_in Hv; try discriminate Htr; discriminate.
Defined.

Lemma assign_average_vars_nothing_trainable_witness :
  assign_average_vars [moving_mean; moving_mean]
                      (env_of (fresh_wrapper (sgd 1) true) store0)
  = (Ok (MkOp KNoOp []), env_of (fresh_wrapper (sgd 1) true) store0).
Proof.
  destruct (assign_average_vars_nothing_trainable [moving_mean; moving_mean]
              (env_of (fresh_wrapper (sgd 1) true) store0)) as (_ & H & _).
  - intros v Hv. cases_in Hv; reflexivity.
  - exact H.
Defined.

Lemma apply_ordering_witness :
  (@_resource_apply_dense Sgd Base tagged_optimizer moving_average
     sample_grad bias slotted_env).1
  = Ok (MkOp KNoOp
          [MkOp (KExtern "dense") [];
           MkOp (KExtern "AssignSubVariableOp") [MkOp (KExtern "dense") []]]) /\
  (@_resource_apply_sparse Sgd Base tagged_optimizer moving_average
     sample_grad bias sample_grad slotted_env).1
  = Ok (MkOp KNoOp
          [MkOp (KExtern "sparse") [];
           MkOp (KExtern "AssignSubVariableOp") [MkOp (KExtern "sparse") []]]) /\
  (@_resource_apply_sparse_duplicate_indices Sgd Base tagged_optimizer
     moving_average sample_grad bias sample_grad slotted_env).1
  = Ok (MkOp KNoOp
          [MkOp (KExtern "sparse_duplicate_indices") [];
           MkOp (KExtern "AssignSubVariableOp")
                [MkOp (KExtern "sparse_duplicate_indices") []]]) /\
  forall completed,
    ready completed
      (MkOp (KExtern "AssignSubVariableOp") [MkOp (KExtern "dense") []]) ->
    In (MkOp (KExtern "dense") []) completed.
Proof.
  destruct (apply_ordering (BO := tagged_optimizer) moving_average_rule
              sample_grad bias sample_grad slotted_env bias_average)
    as (Hdense & Hsparse & Hdup); [reflexivity|].
  pose proof (Hdense (MkOp (KExtern "dense") [])
                (MkOp (KExtern "AssignSubVariableOp")
                      [MkOp (KExtern "dense") []])
                eq_refl eq_refl) as (H1 & _ & _ & _ & Hseq & _).
  pose proof (Hsparse (MkOp (KExtern "sparse") [])
                (MkOp (KExtern "AssignSubVariableOp")
                      [MkOp (KExtern "sparse") []])
                eq_refl eq_refl) as (H2 & _).
  pose proof (Hdup (MkOp (KExtern "sparse_duplicate_indices") [])
                (MkOp (KExtern "AssignSubVariableOp")
                      [MkOp (KExtern "sparse_duplicate_indices") []])
                eq_refl eq_refl) as (H3 & _).
  split; [exact H1|]. split; [exact H2|]. split; [exact H3|].
  destruct Hseq as [_ Hcreated]; [reflexivity|].
  destruct (Hcreated (MkOp (KExtern "AssignSubVariableOp")
                           [MkOp (KExtern "dense") []])) as [_ Hready].
  - left. reflexivity.
  - exact Hready.
Defined.

Lemma weights_own_then_base_witness :
  weights (self trained_env) = _weights (self trained_env) ++ [] /\
  length (_weights (self trained_env)) = 2%nat /\
  forall i v, (i < 2)%nat -> weights (self trained_env) !! i = Some v ->
              _iterations (self trained_env) = Some v \/
              is_slot (self trained_env) v.
Proof.
  destruct (weights_own_then_base (self trained_env))
    as (Heq & _ & _ & _ & Hown).
  split; [exact Heq|]. split; [reflexivity|].
  apply Hown.
  exact (own_weights_after_calls
           (PyOptimizer (sgd 1)) (PyBool true) default_name no_options
           (fresh_wrapper (sgd 1) true) store0 [] []
           [CApplyGradients [(Some (GDense sample_grad), bias)] None]
           (init_reference (sgd 1) true)).
Defined.

(** Before its first [apply_gradients], a wrapper around an optimizer
    that has already counted five steps reads zero on its own counter and
    five on the wrapped optimizer's: two different variables with
    different values.  The call that follows makes them one. *)
Lemma counters_differ_before_first_apply :
  read_counter (_iterations (self before_first_apply))
               (store before_first_apply)
  = Some (zeros [] int64) /\
  read_counter (b_iterations (_optimizer (self before_first_apply)))
               (store before_first_apply)
  = Some {| t_shape := []; t_dtype := int64; t_data := [5] |} /\
  read_counter (_iterations (self before_first_apply))
               (store before_first_apply)
  <> read_counter (b_iterations (_optimizer (self before_first_apply)))
                  (store before_first_apply) /\
  ~ counters_shared (self before_first_apply) /\
  counters_shared
    (self (apply_gradients [(Some (GDense sample_grad), bias)] None
                           before_first_apply).2).
Proof.
  split; [reflexivity|]. split; [reflexivity|]. split.
  - vm_compute. discriminate.
  - split.
    + intros (it & H1 & H2). vm_compute in H1, H2. congruence.
    + eexists. split; vm_compute; reflexivity.
Qed.

Lemma wrapper_apply_missing_slot_witness :
  exists msg env',
    wrapper_apply (ResourceApplyDense sample_grad bias) unslotted_env
    = (Raise (KeyError msg), env') /\
    trace env' = [EvBaseApply (ResourceApplyDense sample_grad bias) [];
                  EvGetSlot bias "average"].
Proof.
  destruct (wrapper_apply_missing_slot (ResourceApplyDense sample_grad bias)
              unslotted_env sample_train_op)
    as (msg & env' & Hrun & Htrace).
  - reflexivity.
  - reflexivity.
  - exists msg, env'. split; [exact Hrun|exact Htrace].
Defined.

Lemma wrapper_apply_propagates_witness :
  @wrapper_apply Sgd Base failing_optimizer moving_average
    (ResourceApplySparse sample_grad bias sample_grad) slotted_env
  = (Raise (RuntimeError "sparse"),
     log (EvBaseApply (ResourceApplySparse sample_grad bias sample_grad) [])
         slotted_env) /\
  exists env',
    @wrapper_apply Sgd Base sgd_optimizer abstract_rule
      (ResourceApplyDense sample_grad bias) slotted_env
    = (Raise NotImplementedError, env').
Proof.
  split.
  - destruct (wrapper_apply_propagates (BO := failing_optimizer)
                (ResourceApplySparse sample_grad bias sample_grad) slotted_env)
      as [H _].
    apply H. reflexivity.
  - destruct (wrapper_apply_propagates (AR := abstract_rule)
                (ResourceApplyDense sample_grad bias) slotted_env)
      as [_ H].
    destruct (H sample_train_op bias_average NotImplementedError)
      as (env' & Hrun & _); [reflexivity|reflexivity|reflexivity|].
    exists env'. exact Hrun.
Defined.

Lemma assign_average_vars_missing_slot_witness :
  exists msg env',
    assign_average_vars ([moving_mean] ++ kernel :: [bias]) unslotted_env
    = (Raise (KeyError msg), env') /\
    trace env' = [EvGetSlot kernel "average"].
Proof.
  destruct (assign_average_vars_missing_slot [moving_mean] kernel [bias]
              unslotted_env)
    as (msg & env' & Hrun & Htrace).
  - intros u Hu Htr. cases_in Hu. discriminate Htr.
  - reflexivity.
  - reflexivity.
  - exists msg, env'. split; [exact Hrun|exact Htrace].
Defined.

Lemma average_slot_persists_witness :
  average_slot
    (self (run_calls [CApplyGradients [(Some (GDense sample_grad), bias)] None;
                      CAssignAverageVars sample_vars;
                      CSetLr (PyInt 2);
                      CCreateSlots sample_vars] slotted_env)) bias
  = Some bias_average.
Proof.
  apply (average_slot_persists _ slotted_env bias bias_average).
  reflexivity.
Defined.

Lemma own_weights_append_only_witness :
  _weights
    (self (run_calls [CApplyGradients [(Some (GDense sample_grad), bias)] None;
                      CCreateSlots sample_vars] slotted_env)) !! 0%nat
  = Some kernel_average.
Proof.
  apply (own_weights_append_only _ slotted_env 0 kernel_average).
  reflexivity.
Defined.

Lemma create_slots_keeps_store_witness :
  store (_create_slots sample_vars unslotted_env).2 !! 2%positive
  = Some (tensor [3%nat] [7; 8; 9]).
Proof.
  apply (create_slots_keeps_store sample_vars unslotted_env).
  reflexivity.
Defined.


Lemma assign_average_vars_stays_defined_witness :
  exists env',
    assign_average_vars sample_vars
      (run_calls [CApplyGradients [(Some (GDense sample_grad), bias)] None;
                  CSetLr (PyInt 2)] slotted_env)
    = (Ok (MkOp KNoOp [MkOp (KAssign kernel kernel_average) [];
                       MkOp (KAssign bias bias_average) []]), env').
Proof.
  destruct (assign_average_vars_stays_defined
              [CApplyGradients [(Some (GDense sample_grad), bias)] None;
               CSetLr (PyInt 2)] sample_vars slotted_env)
    as (env' & Hrun).
  - intros v Hv Htr. cases_in Hv; try discriminate Htr;
      vm_compute; eexists; reflexivity.
  - exists env'. exact Hrun.
Defined.

Lemma from_config_failures_witness :
  from_config config_without_optimizer PyNone
  = (Raise (KeyError "optimizer"), config_without_optimizer) /\
  from_config config_bad_nested PyNone
  = (Raise (ValueError "Unknown optimizer: NoSuchOptimizer"),
     delete "optimizer" config_bad_nested) /\
  is_type_error (from_config config_bad_flag PyNone).1 /\
  (from_config config_bad_flag PyNone).2 !! "optimizer" = None.
Proof.
  split; [|split].
  - destruct (from_config_failures config_without_optimizer PyNone)
      as (H & _).
    apply H. reflexivity.
  - destruct (from_config_failures config_bad_nested PyNone)
      as (_ & H & _).
    apply (H unknown_nested); reflexivity.
  - destruct (from_config_failures config_bad_flag PyNone)
      as (_ & _ & H).
    destruct (H (serialize_sgd (sgd 3)) (sgd 3) (PyInt 1) base_fields)
      as [Herr Hafter]; try reflexivity.
    split; [exact Herr|]. rewrite Hafter. apply lookup_delete_eq.
Defined.

Lemma from_config_defaults_witness :
  exists w,
    (from_config config_without_flag PyNone).1 = Ok w /\
    _sequential_update w = true /\ _optimizer w = sgd 3 /\ _weights w = [].
Proof.
  destruct (from_config_defaults config_without_flag PyNone
              (serialize_sgd (sgd 3)) (sgd 3)
              {| k_name := PyStr "swa"; k_options := ∅ |})
    as (w & Hw & Hflag & Hopt & _ & _ & Hws & _).
  - reflexivity.
  - reflexivity.
  - reflexivity.
  - vm_compute. reflexivity.
  - exists w. split; [exact Hw|]. split; [exact Hflag|].
    split; [exact Hopt|exact Hws].
Defined.

Lemma init_error_precedence_witness :
  __init__ PyNone (PyInt 1) default_name
           (<["momentum" := PyInt 1]> no_options)
  = Raise (TypeError "Unexpected keyword argument passed to optimizer") /\
  __init__ PyNone (PyInt 1) default_name no_options
  = Raise (TypeError
             "optimizer is not an object of tf.keras.optimizers.Optimizer") /\
  __init__ (PyOptimizer (sgd 1)) (PyInt 1) default_name no_options
  = Raise (TypeError "sequential_update must be of bool type").
Proof.
  split; [|split].
  - destruct (init_error_precedence PyNone (PyInt 1) default_name
                (<["momentum" := PyInt 1]> no_options)) as (H & _).
    apply H. vm_compute. reflexivity.
  - destruct (init_error_precedence PyNone (PyInt 1) default_name no_options)
      as (_ & H & _).
    apply (H base_fields PyNone); reflexivity.
  - destruct (init_error_precedence (PyOptimizer (sgd 1)) (PyInt 1)
                default_name no_options) as (_ & _ & H & _).
    apply (H base_fields (sgd 1)); reflexivity.
Defined.

End Evaluation.
